(** * CreditBureauFeatureExtractor: a shallow embedding and its properties

    The Python class [CreditBureauFeatureExtractor]
    (credit_bureau_feat_extractor.py) reads nested JSON-like documents.
    Python values are embedded as the inductive [pyval]; an exception is
    the [Raise] branch of the error monad [result]; a bare [except:] is
    [try_except].  The wall clock ([datetime.today()], [datetime.now()]) is
    an explicit argument [now], one reading per call.

    Strings are [String.string]; a character is read as a code point below
    256 (Latin-1), so [\d] is [0-9] and Python's white space is the twelve
    code points of [isspace]. *)

From Stdlib Require Import ZArith List String Ascii Bool Lia.
From Stdlib Require Import DecimalString Floats.SpecFloat.
Import ListNotations.

Local Open Scope string_scope.
Local Open Scope Z_scope.
Local Set Warnings "-register-all".

(** ** Python values, exceptions and the builtins the extractor calls *)

Module Py.

Inductive exn : Type :=
| AttributeError
| TypeError
| KeyError
| ValueError
| OverflowError
| ZeroDivisionError.

Inductive result (A : Type) : Type :=
| Ok (a : A)
| Raise (e : exn).
Arguments Ok {A} a.
Arguments Raise {A} e.

Definition bind {A B : Type} (m : result A) (k : A -> result B) : result B :=
  match m with
  | Ok a => k a
  | Raise e => Raise e
  end.

(** [try: body / except: handler] with a bare [except]. *)
Definition try_except {A : Type} (body : result A) (handler : result A) : result A :=
  match body with
  | Ok a => Ok a
  | Raise _ => handler
  end.

(** binary64, as Python's [float]. *)
Definition prec : Z := 53.
Definition emax : Z := 1024.
Definition float : Type := spec_float.

(** A dict is kept as the list of its items in insertion order; JSON
    object keys are strings. *)
Inductive pyval : Type :=
| VNone
| VBool (b : bool)
| VInt (z : Z)
| VFloat (f : float)
| VStr (s : string)
| VList (l : list pyval)
| VDict (d : list (string * pyval)).

Definition dict : Type := list (string * pyval).

(** *** Characters and strings *)

Definition code (c : ascii) : N := N_of_ascii c.

(** [str.isspace] / [\s] on code points below 256. *)
Definition isspace (c : ascii) : bool :=
  let n := code c in
  ((9 <=? n) && (n <=? 13) || (28 <=? n) && (n <=? 32) || (n =? 133) || (n =? 160))%N.

(** [\d] on code points below 256. *)
Definition isdigit (c : ascii) : bool :=
  let n := code c in ((48 <=? n) && (n <=? 57))%N.

Definition digit_val (c : ascii) : Z := Z.of_N (code c) - 48.

Fixpoint lstrip (s : string) : string :=
  match s with
  | String c r => if isspace c then lstrip r else s
  | EmptyString => EmptyString
  end.

Fixpoint rstrip (s : string) : string :=
  match s with
  | String c r =>
      let r' := rstrip r in
      if isspace c && (r' =? "")%string then "" else String c r'
  | EmptyString => EmptyString
  end.

(** [s.strip()] *)
Definition strip (s : string) : string := rstrip (lstrip s).

Fixpoint str_filter (p : ascii -> bool) (s : string) : string :=
  match s with
  | String c r => if p c then String c (str_filter p r) else str_filter p r
  | EmptyString => EmptyString
  end.

Fixpoint str_forall (p : ascii -> bool) (s : string) : bool :=
  match s with
  | String c r => p c && str_forall p r
  | EmptyString => true
  end.

Fixpoint str_exists (p : ascii -> bool) (s : string) : bool :=
  match s with
  | String c r => p c || str_exists p r
  | EmptyString => false
  end.

(** [x in (a, b, ...)] for a string [x] and a tuple of strings. *)
Definition str_in (x : string) (l : list string) : bool :=
  existsb (String.eqb x) l.

(** [sub in s] for strings. *)
Fixpoint contains (sub s : string) : bool :=
  prefix sub s ||
  match s with
  | String _ r => contains sub r
  | EmptyString => false
  end.

(** [str.lower] on one code point below 256: A-Z, and the Latin-1 capitals
    0xC0-0xDE other than the multiplication sign 0xD7. *)
Definition lower_char (c : ascii) : ascii :=
  let n := code c in
  if ((65 <=? n) && (n <=? 90) || (192 <=? n) && (n <=? 222) && negb (n =? 215))%N
  then ascii_of_N (n + 32) else c.

Fixpoint lower (s : string) : string :=
  match s with
  | String c r => String (lower_char c) (lower r)
  | EmptyString => EmptyString
  end.

(** Value of a string of decimal digits, most significant first. *)
Fixpoint digits_val_acc (acc : Z) (s : string) : Z :=
  match s with
  | String c r => digits_val_acc (10 * acc + digit_val c) r
  | EmptyString => acc
  end.

Definition digits_val (s : string) : Z := digits_val_acc 0 s.

(** *** Truth value, [dict] access *)

Definition is_zero (f : float) : bool :=
  match f with
  | S754_zero _ => true
  | _ => false
  end.

(** [bool(v)] *)
Definition truthy (v : pyval) : bool :=
  match v with
  | VNone => false
  | VBool b => b
  | VInt z => negb (z =? 0)
  | VFloat f => negb (is_zero f)
  | VStr s => negb (s =? "")%string
  | VList l => match l with [] => false | _ => true end
  | VDict d => match d with [] => false | _ => true end
  end.

Fixpoint lookup (k : string) (d : dict) : option pyval :=
  match d with
  | (k', v) :: r => if (k =? k')%string then Some v else lookup k r
  | [] => None
  end.

Definition has_key (k : string) (d : dict) : bool :=
  match lookup k d with
  | Some _ => true
  | None => false
  end.

(** [d[k] = v] *)
Fixpoint set_item (k : string) (v : pyval) (d : dict) : dict :=
  match d with
  | (k', v') :: r =>
      if (k =? k')%string then (k', v) :: r else (k', v') :: set_item k v r
  | [] => [(k, v)]
  end.

(** [d.update(other)] *)
Definition update (d other : dict) : dict :=
  fold_left (fun acc kv => set_item (fst kv) (snd kv) acc) other d.

(** [obj.get(key, default)]: only a dict has the attribute [get]. *)
Definition get (obj : pyval) (key : string) (default : pyval) : result pyval :=
  match obj with
  | VDict d =>
      match lookup key d with
      | Some v => Ok v
      | None => Ok default
      end
  | _ => Raise AttributeError
  end.

(** [obj[key]] with a string key. *)
Definition getitem (obj : pyval) (key : string) : result pyval :=
  match obj with
  | VDict d =>
      match lookup key d with
      | Some v => Ok v
      | None => Raise KeyError
      end
  | _ => Raise TypeError
  end.

Definition isinstance_dict (v : pyval) : bool :=
  match v with
  | VDict _ => true
  | _ => false
  end.

(** [obj.strip()]: only a str has the attribute. *)
Definition method_strip (obj : pyval) : result string :=
  match obj with
  | VStr s => Ok (strip s)
  | _ => Raise AttributeError
  end.

(** [obj.items()]: only a dict has the attribute. *)
Definition method_items (obj : pyval) : result (list (string * pyval)) :=
  match obj with
  | VDict d => Ok d
  | _ => Raise AttributeError
  end.

(** [for x in obj]: the elements of a list, the characters of a str, the
    keys of a dict; nothing else here is iterable. *)
Definition iter (obj : pyval) : result (list pyval) :=
  match obj with
  | VList l => Ok l
  | VStr s => Ok (map (fun c => VStr (String c EmptyString)) (list_ascii_of_string s))
  | VDict d => Ok (map (fun kv => VStr (fst kv)) d)
  | _ => Raise TypeError
  end.

(** [v == s] for a str [s]. *)
Definition eq_str (v : pyval) (s : string) : bool :=
  match v with
  | VStr x => (x =? s)%string
  | _ => false
  end.

(** [key in obj] for a str [key]: a key of a dict, a substring of a str,
    an element of a list. *)
Definition contains_key (key : string) (obj : pyval) : result bool :=
  match obj with
  | VDict d => Ok (has_key key d)
  | VStr s => Ok (contains key s)
  | VList l => Ok (existsb (fun x => eq_str x key) l)
  | _ => Raise TypeError
  end.

(** *** Numbers: [int], [bool] (a subclass of [int]) and [float] *)

Inductive num : Type :=
| NInt (z : Z)
| NFloat (f : float).

Definition as_num (v : pyval) : option num :=
  match v with
  | VBool b => Some (NInt (Z.b2z b))
  | VInt z => Some (NInt z)
  | VFloat f => Some (NFloat f)
  | _ => None
  end.

(** [isinstance(v, (int, float))] *)
Definition isinstance_int_float (v : pyval) : bool :=
  match as_num v with
  | Some _ => true
  | None => false
  end.

Definition finite_or_overflow (f : float) : result float :=
  match f with
  | S754_infinity _ => Raise OverflowError
  | _ => Ok f
  end.

(** [float(z)] for an int: nearest binary64, ties to even; an int beyond
    the range raises. *)
Definition float_of_Z (z : Z) : result float :=
  finite_or_overflow (binary_normalize prec emax z 0 false).

(** The quotient of two integers rounded once to binary64. *)
Definition float_div_Z (x y : Z) : float :=
  match x, y with
  | _, Z0 => S754_nan
  | Z0, _ => S754_zero (y <? 0)
  | _, _ =>
      SFdiv prec emax
        (S754_finite (x <? 0) (Z.to_pos (Z.abs x)) 0)
        (S754_finite (y <? 0) (Z.to_pos (Z.abs y)) 0)
  end.

(** Exact comparison of a float with an int; [None] for a NaN. *)
Definition float_compare_Z (f : float) (z : Z) : option comparison :=
  match f with
  | S754_nan => None
  | S754_infinity s => Some (if s then Lt else Gt)
  | S754_zero _ => Some (0 ?= z)
  | S754_finite s m e =>
      let v := if s then Z.neg m else Z.pos m in
      Some (if 0 <=? e then (v * 2 ^ e ?= z) else (v ?= z * 2 ^ (- e)))
  end.

(** [a + b] on numbers.  The extractor adds only numbers; other operands
    are given [TypeError]. *)
Definition add (a b : pyval) : result pyval :=
  match as_num a, as_num b with
  | Some (NInt x), Some (NInt y) => Ok (VInt (x + y))
  | Some (NFloat x), Some (NFloat y) => Ok (VFloat (SFadd prec emax x y))
  | Some (NInt x), Some (NFloat y) =>
      bind (float_of_Z x) (fun fx => Ok (VFloat (SFadd prec emax fx y)))
  | Some (NFloat x), Some (NInt y) =>
      bind (float_of_Z y) (fun fy => Ok (VFloat (SFadd prec emax x fy)))
  | _, _ => Raise TypeError
  end.

(** [a > b] on numbers; int against float is compared exactly. *)
Definition gt (a b : pyval) : result bool :=
  match as_num a, as_num b with
  | Some (NInt x), Some (NInt y) => Ok (y <? x)
  | Some (NFloat x), Some (NFloat y) => Ok (SFltb y x)
  | Some (NInt x), Some (NFloat y) =>
      Ok (match float_compare_Z y x with Some Lt => true | _ => false end)
  | Some (NFloat x), Some (NInt y) =>
      Ok (match float_compare_Z x y with Some Gt => true | _ => false end)
  | _, _ => Raise TypeError
  end.

(** [a / b] on numbers. *)
Definition truediv (a b : pyval) : result pyval :=
  match as_num a, as_num b with
  | Some (NInt x), Some (NInt y) =>
      if y =? 0 then Raise ZeroDivisionError
      else bind (finite_or_overflow (float_div_Z x y)) (fun q => Ok (VFloat q))
  | Some (NFloat x), Some (NFloat y) =>
      if is_zero y then Raise ZeroDivisionError
      else Ok (VFloat (SFdiv prec emax x y))
  | Some (NInt x), Some (NFloat y) =>
      bind (float_of_Z x) (fun fx =>
      if is_zero y then Raise ZeroDivisionError
      else Ok (VFloat (SFdiv prec emax fx y)))
  | Some (NFloat x), Some (NInt y) =>
      bind (float_of_Z y) (fun fy =>
      if y =? 0 then Raise ZeroDivisionError
      else Ok (VFloat (SFdiv prec emax x fy)))
  | _, _ => Raise TypeError
  end.

(** [sum(f(a) for a in l)]: the generator is consumed item by item,
    each item added to the running total, which starts from the int 0.
    (The compensated summation CPython 3.12 applies to floats is not
    modelled.) *)
Fixpoint sum_gen_from {A : Type} (f : A -> result pyval) (acc : pyval) (l : list A)
  : result pyval :=
  match l with
  | a :: r =>
      bind (f a) (fun x => bind (add acc x) (fun acc' => sum_gen_from f acc' r))
  | [] => Ok acc
  end.

Definition sum_gen {A : Type} (f : A -> result pyval) (l : list A) : result pyval :=
  sum_gen_from f (VInt 0) l.

(** *** [float(s)] on the strings [re.sub(r'[^\d.]', '', ...)] produces

    Such a string holds digits and dots only.  It is a float literal iff
    it has at most one dot and at least one digit; its value is the
    decimal number rounded once to binary64 (a value beyond the range
    reads as [inf]). *)

Fixpoint split_dot (s : string) : string * option string :=
  match s with
  | String c r =>
      if (c =? ".")%char then (EmptyString, Some r)
      else let '(ip, fp) := split_dot r in (String c ip, fp)
  | EmptyString => (EmptyString, None)
  end.

Definition float_of_decimal (ip fp : string) : float :=
  float_div_Z (digits_val (ip ++ fp)) (10 ^ Z.of_nat (String.length fp)).

Definition float_of_str (s : string) : result float :=
  let '(ip, rest) := split_dot s in
  let fp := match rest with Some fp => fp | None => EmptyString end in
  if str_forall isdigit ip && str_forall isdigit fp
     && negb ((ip ++ fp) =? "")%string
  then Ok (float_of_decimal ip fp)
  else Raise ValueError.

Definition is_numeric_char (c : ascii) : bool :=
  isdigit c || (c =? ".")%char.

(** [re.sub(r'[^\d.]', '', s)] *)
Definition re_sub_non_numeric (s : string) : string :=
  str_filter is_numeric_char s.

(** *** [repr] and [str]

    [repr] of a float is the shortest decimal that reads back as the
    same binary64 (the one nearest to it when there are several, the one
    with an even last digit when two are equally near), in
    exponent notation when the decimal point position is at most -4 or
    above 16. *)

Definition string_of_Z (z : Z) : string :=
  DecimalString.NilZero.string_of_int (Z.to_int z).

(** [d * 10^q ?= n * 2^t] for non-negative [d], [n]. *)
Definition cmp_dec_bin (d q n t : Z) : comparison :=
  (d * 10 ^ Z.max q 0 * 2 ^ Z.max (- t) 0 ?= n * 2 ^ Z.max t 0 * 10 ^ Z.max (- q) 0).

(** The largest [k] with [10^k <= m * 2^e], from an estimate that is at
    most three below it. *)
Fixpoint climb10 (fuel : nat) (m e k : Z) : Z :=
  match fuel with
  | S fuel' =>
      match cmp_dec_bin 1 (k + 1) m e with
      | Gt => k
      | _ => climb10 fuel' m e (k + 1)
      end
  | O => k
  end.

Definition floor_log10 (m e : Z) : Z :=
  climb10 4 m e (((Z.log2 m + e) * 30103) / 100000 - 1).

(** Whether [d * 10^q] reads back as the float [m * 2^e]: it lies between
    the midpoints to the two neighbours, the midpoints included iff [m]
    is even. *)
Definition reads_back (m e d q : Z) : bool :=
  let lo := if (m =? 2 ^ (prec - 1)) && (emin prec emax <? e) then 4 * m - 1 else 4 * m - 2 in
  let hi := 4 * m + 2 in
  match cmp_dec_bin d q lo (e - 2), cmp_dec_bin d q hi (e - 2) with
  | Gt, Lt => true
  | Eq, Lt | Gt, Eq => Z.even m
  | _, _ => false
  end.

(** The shortest digits [d] and exponent [q] with [d * 10^q] reading back
    as [m * 2^e], trying 1, 2, ... significant digits. *)
Fixpoint shortest_from (fuel : nat) (m e k n : Z) : Z * Z :=
  let q := k + 1 - n in
  let lo := (m * 2 ^ Z.max e 0 * 10 ^ Z.max (- q) 0) / (2 ^ Z.max (- e) 0 * 10 ^ Z.max q 0) in
  let hi := lo + 1 in
  match fuel with
  | S fuel' =>
      match reads_back m e lo q, reads_back m e hi q with
      | true, true =>
          match cmp_dec_bin (lo + hi) q (2 * m) e with
          | Lt => (hi, q)
          | Eq => (if Z.even lo then lo else hi, q)
          | Gt => (lo, q)
          end
      | true, false => (lo, q)
      | false, true => (hi, q)
      | false, false => shortest_from fuel' m e k (n + 1)
      end
  | O => (lo, q)
  end.

Fixpoint strip_zeros (fuel : nat) (d q : Z) : Z * Z :=
  match fuel with
  | S fuel' => if (d mod 10 =? 0) && negb (d =? 0) then strip_zeros fuel' (d / 10) (q + 1) else (d, q)
  | O => (d, q)
  end.

Fixpoint zeros (n : nat) : string :=
  match n with
  | S n' => String "0" (zeros n')
  | O => EmptyString
  end.

Definition repr_finite (m e : Z) : string :=
  let '(d0, q0) := shortest_from 17 m e (floor_log10 m e) 1 in
  let '(d, q) := strip_zeros 18 d0 q0 in
  let ds := string_of_Z d in
  let n := Z.of_nat (String.length ds) in
  let decpt := n + q in
  if (decpt <=? -4) || (16 <? decpt) then
    let x := decpt - 1 in
    let xs := string_of_Z (Z.abs x) in
    substring 0 1 ds
    ++ (if n =? 1 then "" else "." ++ substring 1 (String.length ds - 1) ds)
    ++ "e" ++ (if x <? 0 then "-" else "+")
    ++ (if Z.abs x <? 10 then "0" else "") ++ xs
  else if decpt <=? 0 then "0." ++ zeros (Z.to_nat (- decpt)) ++ ds
  else if n <=? decpt then ds ++ zeros (Z.to_nat (decpt - n)) ++ ".0"
  else substring 0 (Z.to_nat decpt) ds ++ "."
       ++ substring (Z.to_nat decpt) (String.length ds - Z.to_nat decpt) ds.

Definition repr_float (f : float) : string :=
  match f with
  | S754_nan => "nan"
  | S754_infinity s => if s then "-inf" else "inf"
  | S754_zero s => if s then "-0.0" else "0.0"
  | S754_finite s m e => (if s then "-" else "") ++ repr_finite (Z.pos m) e
  end.

Definition hex_digit (n : N) : ascii :=
  ascii_of_N (if (n <? 10)%N then 48 + n else 87 + n).

(** One character inside [repr] of a string quoted with [quote]. *)
Definition repr_char (quote c : ascii) : string :=
  let n := code c in
  if (c =? quote)%char || (c =? "\")%char then String "\" (String c "")
  else if (n =? 9)%N then "\t"
  else if (n =? 10)%N then "\n"
  else if (n =? 13)%N then "\r"
  else if ((n <? 32) || (n =? 127) || (128 <=? n) && (n <=? 160) || (n =? 173))%N
  then "\x" ++ String (hex_digit (n / 16)) (String (hex_digit (n mod 16)) "")
  else String c "".

Definition dquote : ascii := ascii_of_N 34.

Definition repr_str (s : string) : string :=
  let quote : ascii :=
    if str_exists (Ascii.eqb "'") s && negb (str_exists (Ascii.eqb dquote) s)
    then dquote else "'"%char in
  String quote (concat "" (map (repr_char quote) (list_ascii_of_string s)))
  ++ String quote "".

(** [sys.int_max_str_digits], as CPython 3.11 sets it by default. *)
Definition int_max_str_digits : Z := 4300.

(** [repr(z)] of an int.  An int of more than [int_max_str_digits] decimal
    digits is not converted: ValueError. *)
Definition repr_int (z : Z) : result string :=
  if 10 ^ int_max_str_digits <=? Z.abs z then Raise ValueError
  else Ok (string_of_Z z).

(** [repr(v)]; the items of a list or dict are converted from left to
    right and the first that raises ends the conversion.  (The
    RecursionError of a value nested deeper than the interpreter's
    recursion limit is not modelled.) *)
Fixpoint repr (v : pyval) : result string :=
  match v with
  | VNone => Ok "None"
  | VBool b => Ok (if b then "True" else "False")
  | VInt z => repr_int z
  | VFloat f => Ok (repr_float f)
  | VStr s => Ok (repr_str s)
  | VList l =>
      bind ((fix items (l : list pyval) : result (list string) :=
               match l with
               | x :: r =>
                   bind (repr x) (fun t => bind (items r) (fun ts => Ok (t :: ts)))
               | [] => Ok []
               end) l)
           (fun ts => Ok ("[" ++ concat ", " ts ++ "]"))
  | VDict d =>
      bind ((fix items (d : list (string * pyval)) : result (list string) :=
               match d with
               | (k, x) :: r =>
                   bind (repr x)
                        (fun t => bind (items r)
                                       (fun ts => Ok ((repr_str k ++ ": " ++ t) :: ts)))
               | [] => Ok []
               end) d)
           (fun ts => Ok ("{" ++ concat ", " ts ++ "}"))
  end.

(** [str(v)] *)
Definition str (v : pyval) : result string :=
  match v with
  | VStr s => Ok s
  | _ => repr v
  end.

End Py.

(** ** [datetime]: calendar arithmetic and [strptime] *)

Module Datetime.
Import Py.

Record datetime : Type := mk_datetime {
  year : Z; month : Z; day : Z;
  hour : Z; minute : Z; second : Z; microsecond : Z
}.

Definition is_leap (y : Z) : bool :=
  (y mod 4 =? 0) && (negb (y mod 100 =? 0) || (y mod 400 =? 0)).

Definition days_in_month (y m : Z) : Z :=
  if m =? 2 then (if is_leap y then 29 else 28)
  else if (m =? 4) || (m =? 6) || (m =? 9) || (m =? 11) then 30
  else 31.

Definition days_before_year (y : Z) : Z :=
  let p := y - 1 in p * 365 + p / 4 - p / 100 + p / 400.

Definition days_before_month (y m : Z) : Z :=
  fold_left (fun acc k => acc + days_in_month y k)
            (map Z.of_nat (seq 1 (Z.to_nat (m - 1)))) 0.

(** [date.toordinal()]: 1 for 0001-01-01. *)
Definition toordinal (dt : datetime) : Z :=
  days_before_year (year dt) + days_before_month (year dt) (month dt) + day dt.

(** The checks of the [datetime(...)] constructor. *)
Definition valid (dt : datetime) : bool :=
  (1 <=? year dt) && (year dt <=? 9999)
  && (1 <=? month dt) && (month dt <=? 12)
  && (1 <=? day dt) && (day dt <=? days_in_month (year dt) (month dt))
  && (0 <=? hour dt) && (hour dt <=? 23)
  && (0 <=? minute dt) && (minute dt <=? 59)
  && (0 <=? second dt) && (second dt <=? 59).

Definition micros (dt : datetime) : Z :=
  ((toordinal dt * 86400 + hour dt * 3600 + minute dt * 60 + second dt) * 1000000)
  + microsecond dt.

(** [(a - b).days]: a timedelta is normalised with its seconds and
    microseconds non-negative, so the days are the floor. *)
Definition sub_days (a b : datetime) : Z :=
  (micros a - micros b) / 86400000000.

(** [(a.month, a.day) < (b.month, b.day)] *)
Definition month_day_lt (a b : datetime) : bool :=
  (month a <? month b) || ((month a =? month b) && (day a <? day b)).

(** *** [strptime]

    [_strptime] turns the format into a regular expression, one group
    per directive, a run of white space into [\s+], and matches it at the
    start of the text; text left over after the match is an error.  The
    matcher below lists the matches in the order a backtracking engine
    tries them; the first one is the engine's answer. *)

Definition cclass : Type := ascii -> bool.

Definition between (lo hi : ascii) : cclass :=
  fun c => ((code lo <=? code c) && (code c <=? code hi))%N.

Definition only (x : ascii) : cclass := fun c => (c =? x)%char.

(** The alternatives of a directive's group, each a sequence of
    character classes. *)
Definition directive (name : ascii) : list (list cclass) :=
  if (name =? "d")%char then
    [ [only "3"; between "0" "1"]; [between "1" "2"; isdigit];
      [only "0"; between "1" "9"]; [between "1" "9"];
      [only " "; between "1" "9"] ]
  else if (name =? "m")%char then
    [ [only "1"; between "0" "2"]; [only "0"; between "1" "9"];
      [between "1" "9"] ]
  else if (name =? "Y")%char then
    [ [isdigit; isdigit; isdigit; isdigit] ]
  else if (name =? "H")%char then
    [ [only "2"; between "0" "3"]; [between "0" "1"; isdigit]; [isdigit] ]
  else if (name =? "M")%char then
    [ [between "0" "5"; isdigit]; [isdigit] ]
  else if (name =? "S")%char then
    [ [only "6"; between "0" "1"]; [between "0" "5"; isdigit]; [isdigit] ]
  else [].

Inductive token : Type :=
| Dir (name : ascii)
| Lit (c : ascii)
| Spaces.

Fixpoint tokens (fmt : string) : list token :=
  match fmt with
  | String "%" (String name r) => Dir name :: tokens r
  | String c r =>
      if isspace c then
        match tokens r with
        | Spaces :: ts => Spaces :: ts
        | ts => Spaces :: ts
        end
      else Lit c :: tokens r
  | EmptyString => []
  end.

(** One alternative against the start of [s]: the text it takes and the
    rest. *)
Fixpoint match_classes (cs : list cclass) (s : string) : option (string * string) :=
  match cs with
  | [] => Some (EmptyString, s)
  | p :: cs' =>
      match s with
      | String c r =>
          if p c then
            match match_classes cs' r with
            | Some (t, rest) => Some (String c t, rest)
            | None => None
            end
          else None
      | EmptyString => None
      end
  end.

Definition match_alts (alts : list (list cclass)) (s : string) : list (string * string) :=
  flat_map (fun a => match match_classes a s with Some x => [x] | None => [] end) alts.

(** [\s+], greedy: the rests after the longest run first. *)
Fixpoint match_spaces (s : string) : list string :=
  match s with
  | String c r => if isspace c then match_spaces r ++ [r] else []
  | EmptyString => []
  end.

Definition groups : Type := list (ascii * string).

Fixpoint match_tokens (ts : list token) (s : string) : list (groups * string) :=
  match ts with
  | [] => [([], s)]
  | Dir name :: ts' =>
      flat_map (fun tr : string * string =>
                  map (fun gr : groups * string => ((name, fst tr) :: fst gr, snd gr))
                      (match_tokens ts' (snd tr)))
               (match_alts (directive name) s)
  | Lit c :: ts' =>
      match s with
      | String c' r => if (c =? c')%char then match_tokens ts' r else []
      | EmptyString => []
      end
  | Spaces :: ts' => flat_map (match_tokens ts') (match_spaces s)
  end.

Fixpoint group (name : ascii) (g : groups) : option string :=
  match g with
  | (n, t) :: r => if (name =? n)%char then Some t else group name r
  | [] => None
  end.

(** [int(found_dict[name])], or the default of a directive that is not
    in the format. *)
Definition field (name : ascii) (default : Z) (g : groups) : Z :=
  match group name g with
  | Some t => digits_val (strip t)
  | None => default
  end.

(** [datetime.strptime(text, fmt)] *)
Definition strptime (text : pyval) (fmt : string) : result datetime :=
  match text with
  | VStr s =>
      match match_tokens (tokens fmt) s with
      | (g, EmptyString) :: _ =>
          let dt := mk_datetime (field "Y" 1900 g) (field "m" 1 g) (field "d" 1 g)
                                (field "H" 0 g) (field "M" 0 g) (field "S" 0 g) 0 in
          if valid dt then Ok dt else Raise ValueError
      | _ => Raise ValueError
      end
  | _ => Raise TypeError
  end.

End Datetime.

(** ** pandas: [DataFrame(records)] and [set_index]

    A frame is its row labels, its column names and one list of cells per
    row, aligned with the columns.  pandas gives every column, and the
    index, one dtype and converts the values it is given to it: an int
    beside a missing cell or beside None becomes a float, None among
    numbers becomes NaN.  The converted values are not modelled: a cell is
    kept as what pandas builds it from, which is nothing when the record
    has no such key, and otherwise the Python value the record holds. *)

Module Pandas.
Import Py.

Inductive cell : Type :=
| Missing
| Built_from (v : pyval).

(** The cell for what a record holds under a key. *)
Definition cell_of (x : option pyval) : cell :=
  match x with
  | Some v => Built_from v
  | None => Missing
  end.

Record DataFrame : Type := mk_frame {
  index : list cell;
  columns : list string;
  data : list (list cell)
}.

Fixpoint add_column (k : string) (cols : list string) : list string :=
  match cols with
  | c :: r => if (k =? c)%string then cols else c :: add_column k r
  | [] => [k]
  end.

(** The union of the records' keys, in order of first appearance. *)
Definition columns_of (records : list dict) : list string :=
  fold_left (fun cols rec => fold_left (fun cs kv => add_column (fst kv) cs) rec cols)
            records [].

(** [pd.DataFrame(records)] for a list of dicts: rows labelled 0, 1, ... *)
Definition from_records (records : list dict) : DataFrame :=
  let cols := columns_of records in
  mk_frame (map (fun i => Built_from (VInt (Z.of_nat i))) (seq 0 (List.length records)))
           cols
           (map (fun rec => map (fun c => cell_of (lookup c rec)) cols) records).

Fixpoint position (k : string) (cols : list string) : option nat :=
  match cols with
  | c :: r =>
      if (k =? c)%string then Some O
      else match position k r with Some i => Some (S i) | None => None end
  | [] => None
  end.

Fixpoint drop_nth {A : Type} (i : nat) (l : list A) : list A :=
  match l, i with
  | [], _ => []
  | _ :: r, O => r
  | x :: r, S j => x :: drop_nth j r
  end.

(** [df.set_index(key)]: the column becomes the row labels; a key that
    is not a column raises [KeyError]. *)
Definition set_index (key : string) (df : DataFrame) : result DataFrame :=
  match position key (columns df) with
  | Some i =>
      Ok (mk_frame (map (fun row => nth i row Missing) (data df))
                   (drop_nth i (columns df))
                   (map (drop_nth i) (data df)))
  | None => Raise KeyError
  end.

Definition n_rows (df : DataFrame) : nat := List.length (index df).

End Pandas.

(** ** The class [CreditBureauFeatureExtractor] *)

Module CreditBureauFeatureExtractor.
Import Py Datetime Pandas.

Notation "x <- m ;; k" := (bind m (fun x => k))
  (at level 61, m at next level, right associativity).

(** [clean_numeric(self, value)] *)
Definition clean_numeric (value : pyval) : result pyval :=
  match value with
  | VNone => Ok (VInt 0)
  | _ =>
      if isinstance_int_float value then Ok value
      else if match value with
              | VStr s => str_in (strip s) [""; "-"; "null"; "None"]
              | _ => false
              end
      then Ok (VInt 0)
      else
        try_except
          (text <- str value ;;
           f <- float_of_str (re_sub_non_numeric text) ;; Ok (VFloat f))
          (Ok (VInt 0))
  end.

(** [calculate_age(self, birthdate_str)]; [now] is what
    [datetime.today()] returns. *)
Definition calculate_age (now : datetime) (birthdate_str : pyval) : result pyval :=
  blank <- (if negb (truthy birthdate_str) then Ok true
            else s <- method_strip birthdate_str ;; Ok (str_in s [""; "-"])) ;;
  if blank : bool then Ok VNone
  else
    try_except
      (birthdate <- strptime birthdate_str "%d/%m/%Y" ;;
       let today := now in
       Ok (VInt (year today - year birthdate - Z.b2z (month_day_lt today birthdate))))
      (Ok VNone).

Definition bad_fields : list string :=
  [ "noofotheraccountsbad"; "noofretailaccountsbad"; "nooftelecomaccountsbad";
    "noofautoloanaccountsbad"; "noofhomeloanaccountsbad"; "noofjointloanaccountsbad";
    "noofstudyloanaccountsbad"; "noofcreditcardaccountsbad"; "noofpersonalloanaccountsbad" ].

Definition good_fields : list string :=
  [ "noofotheraccountsgood"; "noofretailaccountsgood"; "nooftelecomaccountsgood";
    "noofautoloanccountsgood"; "noofhomeloanaccountsgood"; "noofjointloanaccountsgood";
    "noofstudyloanaccountsgood"; "noofcreditcardaccountsgood"; "noofpersonalloanaccountsgood" ].

(** [self.clean_numeric(section.get(field, 0))] *)
Definition clean_field (section : pyval) (field : string) : result pyval :=
  v <- get section field (VInt 0) ;; clean_numeric v.

(** [process_account_ratings(self, account_rating)] *)
Definition process_account_ratings (account_rating : pyval) : result dict :=
  let features := [] in
  bad <- sum_gen (clean_field account_rating) bad_fields ;;
  let features := set_item "no_of_bad_accounts" bad features in
  good <- sum_gen (clean_field account_rating) good_fields ;;
  let features := set_item "no_of_good_accounts" good features in
  Ok features.

(** [process_credit_summary(self, credit_summary)] *)
Definition process_credit_summary (credit_summary : pyval) : result dict :=
  let features := [] in
  debt <- clean_field credit_summary "totaloutstandingdebt" ;;
  let features := set_item "total_outstanding_debt" debt features in
  arrears <- clean_field credit_summary "amountarrear" ;;
  let features := set_item "total_arrears" arrears features in
  instalment <- clean_field credit_summary "totalmonthlyinstalment" ;;
  let features := set_item "total_monthly_instalment" instalment features in
  judgements <- clean_field credit_summary "totalnumberofjudgement" ;;
  let features := set_item "total_number_of_judgements" judgements features in
  Ok features.

(** The body of the [try] in the enquiry loop: the parsed timestamp is
    recent when [(datetime.now() - enquiry_date).days <= 90]. *)
Definition enquiry_is_recent (now : datetime) (enquiry : pyval) : result bool :=
  v <- getitem enquiry "daterequested" ;;
  enquiry_date <- strptime v "%d/%m/%Y %H:%M:%S" ;;
  Ok (sub_days now enquiry_date <=? 90).

(** One turn of the enquiry loop, [except: continue] included. *)
Definition enquiry_step (now : datetime) (recent_count : Z) (enquiry : pyval) : Z :=
  match enquiry_is_recent now enquiry with
  | Ok true => recent_count + 1
  | Ok false => recent_count
  | Raise _ => recent_count
  end.

(** [process_enquiry_history(self, enquiry_history)] *)
Definition process_enquiry_history (now : datetime) (enquiry_history : pyval)
  : result dict :=
  let features := [("total_recent_enquiries", VInt 0)] in
  if negb (truthy enquiry_history) then Ok features
  else
    enquiries <- iter enquiry_history ;;
    let recent_count := fold_left (enquiry_step now) enquiries 0 in
    let features := set_item "total_recent_enquiries" (VInt recent_count) features in
    Ok features.

(** The local variables of the credit agreement loop. *)
Record agreements_state : Type := mk_agreements_state {
  total_duration : pyval;
  valid_durations : Z;
  max_overdue : pyval;
  personal_loans : Z;
  overdrafts : Z;
  written_off : Z
}.

(** One turn of the credit agreement loop. *)
Definition agreement_step (st : agreements_state) (account : pyval)
  : result agreements_state :=
  d <- get account "indicatordescription" (VStr "") ;;
  text <- str d ;;
  let desc := lower text in
  let personal_loans :=
    if contains "personal" desc then personal_loans st + 1 else personal_loans st in
  let overdrafts :=
    if contains "overdraft" desc then overdrafts st + 1 else overdrafts st in
  status <- get account "accountstatus" VNone ;;
  let written_off :=
    if eq_str status "WrittenOff" then written_off st + 1 else written_off st in
  overdue <- clean_field account "amountoverdue" ;;
  higher <- gt overdue (max_overdue st) ;;
  let max_overdue := if higher : bool then overdue else max_overdue st in
  duration <- clean_field account "loanduration" ;;
  positive <- gt duration (VInt 0) ;;
  if positive : bool then
    total <- add (total_duration st) duration ;;
    Ok (mk_agreements_state total (valid_durations st + 1) max_overdue
                            personal_loans overdrafts written_off)
  else
    Ok (mk_agreements_state (total_duration st) (valid_durations st) max_overdue
                            personal_loans overdrafts written_off).

Fixpoint agreement_loop (st : agreements_state) (accounts : list pyval)
  : result agreements_state :=
  match accounts with
  | account :: r => st' <- agreement_step st account ;; agreement_loop st' r
  | [] => Ok st
  end.

(** [process_credit_agreements(self, credit_agreements)] *)
Definition process_credit_agreements (credit_agreements : pyval) : result dict :=
  let features :=
    [ ("personal_loan_count", VInt 0); ("overdraft_count", VInt 0);
      ("max_amount_overdue", VInt 0); ("avg_loan_duration_days", VInt 0);
      ("written_off_accounts", VInt 0) ] in
  if negb (truthy credit_agreements) then Ok features
  else
    accounts <- iter credit_agreements ;;
    st <- agreement_loop (mk_agreements_state (VInt 0) 0 (VInt 0) 0 0 0) accounts ;;
    let features := set_item "personal_loan_count" (VInt (personal_loans st)) features in
    let features := set_item "overdraft_count" (VInt (overdrafts st)) features in
    let features := set_item "max_amount_overdue" (max_overdue st) features in
    let features := set_item "written_off_accounts" (VInt (written_off st)) features in
    if 0 <? valid_durations st then
      avg <- truediv (total_duration st) (VInt (valid_durations st)) ;;
      Ok (set_item "avg_loan_duration_days" avg features)
    else Ok features.

(** [process_delinquency(self, delinquency_info)] *)
Definition process_delinquency (delinquency_info : pyval) : result dict :=
  let features := [("max_months_in_arrears", VInt 0)] in
  if negb (truthy delinquency_info) then Ok features
  else
    months <- clean_field delinquency_info "monthsinarrears" ;;
    Ok (set_item "max_months_in_arrears" months features).

(** [process_personal_details(self, personal_details)] *)
Definition process_personal_details (now : datetime) (personal_details : pyval)
  : result dict :=
  birthdate <- get personal_details "birthdate" VNone ;;
  age <- calculate_age now birthdate ;;
  owned <- get personal_details "propertyownedtype" VNone ;;
  employer <- get personal_details "employerdetail" VNone ;;
  Ok [ ("age", age);
       ("property_owned", VInt (if truthy owned then 1 else 0));
       ("employment_status", VStr (if truthy employer then "Employed" else "Unknown")) ].

(** [v not in (None, '', 'null', '1900-01-01T00:00:00+01:00')] *)
Definition is_filled (v : pyval) : bool :=
  match v with
  | VNone => false
  | VStr s => negb (str_in s [""; "null"; "1900-01-01T00:00:00+01:00"])
  | _ => true
  end.

(** [process_guarantor_info(self, guarantor_details, guarantor_count)] *)
Definition process_guarantor_info (guarantor_details guarantor_count : pyval)
  : result dict :=
  count <- clean_field guarantor_count "accounts" ;;
  let features := [("guarantor_count", count); ("has_guarantor", VInt 0)] in
  if truthy guarantor_details then
    items <- method_items guarantor_details ;;
    if existsb (fun kv : string * pyval =>
                  negb (fst kv =? "guarantordateofbirth")%string && is_filled (snd kv))
               items
    then Ok (set_item "has_guarantor" (VInt 1) features)
    else Ok features
  else Ok features.

(** [extract_features(self, credit_report)] *)
Definition extract_features (now : datetime) (credit_report : pyval) : result dict :=
  application_id <- get credit_report "application_id" VNone ;;
  let features := [("application_id", application_id)] in
  stop <- (if negb (truthy credit_report) then Ok true
           else present <- contains_key "data" credit_report ;; Ok (negb present)) ;;
  if stop : bool then Ok features
  else
    data <- getitem credit_report "data" ;;
    consumer_data <- get data "consumerfullcredit" (VDict []) ;;
    section <- get consumer_data "accountrating" (VDict []) ;;
    part <- process_account_ratings section ;;
    let features := update features part in
    section <- get consumer_data "creditaccountsummary" (VDict []) ;;
    part <- process_credit_summary section ;;
    let features := update features part in
    section <- get consumer_data "enquiryhistorytop" (VList []) ;;
    part <- process_enquiry_history now section ;;
    let features := update features part in
    section <- get consumer_data "creditagreementsummary" (VList []) ;;
    part <- process_credit_agreements section ;;
    let features := update features part in
    section <- get consumer_data "deliquencyinformation" (VDict []) ;;
    part <- process_delinquency section ;;
    let features := update features part in
    section <- get consumer_data "personaldetailssummary" (VDict []) ;;
    part <- process_personal_details now section ;;
    let features := update features part in
    details <- get consumer_data "guarantordetails" (VDict []) ;;
    count <- get consumer_data "guarantorcount" (VDict []) ;;
    part <- process_guarantor_info details count ;;
    let features := update features part in
    Ok features.

(** The filter of the batch loop:
    [isinstance(report, dict) and 'application_id' in report]. *)
Definition survives (report : pyval) : bool :=
  match report with
  | VDict d => has_key "application_id" d
  | _ => false
  end.

(** The batch loop: the features of the surviving reports, in order. *)
Fixpoint collect_features (now : datetime) (features_list : list dict)
         (reports : list pyval) : result (list dict) :=
  match reports with
  | report :: r =>
      if negb (survives report) then collect_features now features_list r
      else
        features <- extract_features now report ;;
        collect_features now (features_list ++ [features]) r
  | [] => Ok features_list
  end.

(** [process_reports(self, credit_reports)] *)
Definition process_reports (now : datetime) (credit_reports : pyval)
  : result DataFrame :=
  reports <- iter credit_reports ;;
  features_list <- collect_features now [] reports ;;
  set_index "application_id" (from_records features_list).

End CreditBureauFeatureExtractor.

Import Py Datetime Pandas CreditBureauFeatureExtractor.

(** ** Notions the statements are written with *)

Definition birthdate_format : string := "%d/%m/%Y".
Definition enquiry_format : string := "%d/%m/%Y %H:%M:%S".

(** The timestamp of an enquiry entry, when the entry has one that parses. *)
Definition timestamp (enquiry : pyval) : option datetime :=
  match enquiry with
  | VDict d =>
      match lookup "daterequested" d with
      | Some v =>
          match strptime v enquiry_format with
          | Ok t => Some t
          | Raise _ => None
          end
      | None => None
      end
  | _ => None
  end.

Definition day_us : Z := 86400000000.

(** Microseconds from [t] to [now]; negative when [t] is in the future. *)
Definition elapsed_us (now t : datetime) : Z := micros now - micros t.

(** The entries the enquiry loop counts: a timestamp that parses and lies
    less than 91 days back from [now], with no bound on the other side. *)
Definition counted (now : datetime) (enquiry : pyval) : bool :=
  match timestamp enquiry with
  | Some t => elapsed_us now t <? 91 * day_us
  | None => false
  end.

(** A timestamp within the last 90 days of [now]. *)
Definition within_last_90_days (now : datetime) (enquiry : pyval) : bool :=
  match timestamp enquiry with
  | Some t => (0 <=? elapsed_us now t) && (elapsed_us now t <=? 90 * day_us)
  | None => false
  end.

(** The identifier a report carries, when it is a mapping that has one. *)
Definition application_id_of (report : pyval) : option pyval :=
  match report with
  | VDict d => lookup "application_id" d
  | _ => None
  end.

(** The label of the row of a report: the cell pandas builds from the
    report's identifier, in the dtype it gives the index. *)
Definition label_of (report : pyval) : cell := cell_of (application_id_of report).

Definition sentinels : list string := [""; "-"; "null"; "None"].

(** The feature mappings of the extractors when nothing was read. *)
Definition default_account_ratings : dict :=
  [("no_of_bad_accounts", VInt 0); ("no_of_good_accounts", VInt 0)].
Definition default_credit_summary : dict :=
  [("total_outstanding_debt", VInt 0); ("total_arrears", VInt 0);
   ("total_monthly_instalment", VInt 0); ("total_number_of_judgements", VInt 0)].
Definition default_enquiry_history : dict := [("total_recent_enquiries", VInt 0)].
Definition default_credit_agreements : dict :=
  [("personal_loan_count", VInt 0); ("overdraft_count", VInt 0);
   ("max_amount_overdue", VInt 0); ("avg_loan_duration_days", VInt 0);
   ("written_off_accounts", VInt 0)].
Definition default_delinquency : dict := [("max_months_in_arrears", VInt 0)].
Definition default_personal_details : dict :=
  [("age", VNone); ("property_owned", VInt 0); ("employment_status", VStr "Unknown")].
Definition default_guarantor_info : dict :=
  [("guarantor_count", VInt 0); ("has_guarantor", VInt 0)].

(** The record of a report whose [data] names no sub-section. *)
Definition default_record (application_id : pyval) : dict :=
  ("application_id", application_id)
  :: (default_account_ratings ++ default_credit_summary ++ default_enquiry_history
      ++ default_credit_agreements ++ default_delinquency ++ default_personal_details
      ++ default_guarantor_info)%list.

(** The keys of a mapping, in order. *)
Definition keys (d : dict) : list string := map fst d.

(** The record the assembler returns for a report it does not raise on. *)
Definition features_of (now : datetime) (report : pyval) : dict :=
  match extract_features now report with
  | Ok f => f
  | Raise _ => []
  end.

(** The assembler raises on none of the reports that pass the filter. *)
Definition assembles (now : datetime) (reports : list pyval) : Prop :=
  Forall (fun r => exists f, extract_features now r = Ok f) (filter survives reports).

(** Decimal digits, as a date is written. *)
Definition digit_char (n : Z) : ascii := ascii_of_N (Z.to_N (48 + n)).

Definition two_digits (n : Z) : string :=
  String (digit_char (n / 10)) (String (digit_char (n mod 10)) "").

Definition four_digits (n : Z) : string :=
  String (digit_char (n / 1000))
    (String (digit_char (n / 100 mod 10))
       (String (digit_char (n / 10 mod 10)) (String (digit_char (n mod 10)) ""))).

(** A date written dd/mm/yyyy. *)
Definition format_birthdate (y m d : Z) : string :=
  two_digits d ++ "/" ++ two_digits m ++ "/" ++ four_digits y.

(** ** Notions of the further properties *)

(** A float that is zero, finite or infinite with the sign bit clear. *)
Definition not_negative (f : float) : bool :=
  match f with
  | S754_zero s | S754_infinity s | S754_finite s _ _ => negb s
  | S754_nan => false
  end.

(** The calendar date of [a] is before that of [b]. *)
Definition date_before (a b : datetime) : Prop :=
  year a < year b
  \/ (year a = year b
      /\ (month a < month b \/ (month a = month b /\ day a < day b))).

Definition rating_fields : list string := (bad_fields ++ good_fields)%list.

(** The counter a field holds when it is an int, 0 when it is absent. *)
Definition int_counter (d : dict) (k : string) : Z :=
  match lookup k d with
  | Some (VInt z) => z
  | _ => 0
  end.

Definition total (l : list Z) : Z := fold_right Z.add 0 l.

Definition is_str (v : pyval) : bool :=
  match v with
  | VStr _ => true
  | _ => false
  end.

(** [d.get(k)] *)
Definition field_or_none (d : dict) (k : string) : pyval :=
  match lookup k d with
  | Some v => v
  | None => VNone
  end.

(** The values the guarantor loop passes over. *)
Definition is_marker (v : pyval) : Prop :=
  v = VNone \/ v = VStr "" \/ v = VStr "null" \/ v = VStr "1900-01-01T00:00:00+01:00".

Definition mem (k : string) (l : list string) : bool := existsb (String.eqb k) l.

Fixpoint distinct (l : list string) : bool :=
  match l with
  | k :: r => negb (mem k r) && distinct r
  | [] => true
  end.

(** No key of [l] is in [l0]. *)
Definition apart (l l0 : list string) : bool := forallb (fun k => negb (mem k l0)) l.

(** The keys of a record of a report with [data], in order. *)
Definition record_keys : list string := keys (default_record VNone).




(** What [str] is applied to in the loop: the description of the mapping,
    the empty string when it has none. *)
Definition described (d : dict) : pyval :=
  match lookup "indicatordescription" d with
  | Some v => v
  | None => VStr ""
  end.

(** [str(account.get('indicatordescription', '')).lower()], where [str]
    returns; the empty string is only a placeholder where it raises, and
    the loop raises there too. *)
Definition description (account : pyval) : string :=
  match account with
  | VDict d =>
      match str (described d) with
      | Ok text => lower text
      | Raise _ => ""
      end
  | _ => ""
  end.

(** A mapping whose description is absent or a string. *)
Definition str_description (account : pyval) : bool :=
  match account with
  | VDict d =>
      match lookup "indicatordescription" d with
      | Some (VStr _) | None => true
      | Some _ => false
      end
  | _ => false
  end.

Definition is_personal (account : pyval) : bool := contains "personal" (description account).

Definition is_overdraft (account : pyval) : bool := contains "overdraft" (description account).

Definition is_written_off (account : pyval) : bool :=
  match account with
  | VDict d => eq_str (field_or_none d "accountstatus") "WrittenOff"
  | _ => false
  end.

Definition count (p : pyval -> bool) (l : list pyval) : Z :=
  Z.of_nat (List.length (filter p l)).

(** A computation that returns a number or raises OverflowError. *)
Definition number_or_overflow (m : result pyval) : Prop :=
  (exists r, m = Ok r /\ isinstance_int_float r = true) \/ m = Raise OverflowError.

(** The two accumulators of the loop that hold Python numbers. *)
Definition numeric_state (st : agreements_state) : Prop :=
  isinstance_int_float (total_duration st) = true
  /\ isinstance_int_float (max_overdue st) = true.

(** Every value of the mapping is a Python number. *)
Definition numeric_values (part : dict) : Prop :=
  Forall (fun kv : string * pyval => isinstance_int_float (snd kv) = true) part.

(** The value a feature of the personal details may hold. *)
Definition personal_value (k : string) (v : pyval) : Prop :=
  (k = "age" /\ (v = VNone \/ exists n, v = VInt n))
  \/ (k = "property_owned" /\ (v = VInt 0 \/ v = VInt 1))
  \/ (k = "employment_status" /\ (v = VStr "Employed" \/ v = VStr "Unknown")).

(** A datetime written dd/mm/yyyy HH:MM:SS. *)
Definition format_timestamp (t : datetime) : string :=
  two_digits (day t) ++ String "/" (two_digits (month t) ++ String "/"
    (four_digits (year t) ++ String " " (two_digits (hour t) ++ String ":"
      (two_digits (minute t) ++ String ":" (two_digits (second t)))))).

(** ** The error monad *)

Lemma bind_ok_inv {A B : Type} (m : result A) (k : A -> result B) (b : B) :
  bind m k = Ok b -> exists a, m = Ok a /\ k a = Ok b.
Proof.
  destruct m as [a | e]; simpl; intros H.
  - exists a. split; [reflexivity | exact H].
  - discriminate H.
Qed.

Lemma try_except_ok {A : Type} (body : result A) (a : A) :
  exists r, try_except body (Ok a) = Ok r.
Proof. destruct body as [x | e]; simpl; eauto. Qed.

(** ** The numeric normalizer *)

Lemma re_sub_only_numeric (s : string) :
  str_forall is_numeric_char (re_sub_non_numeric s) = true.
Proof.
  unfold re_sub_non_numeric.
  induction s as [| c r IH]; simpl; [reflexivity |].
  destruct (is_numeric_char c) eqn:E; simpl; [rewrite E |]; exact IH.
Qed.

Example float_of_str_literals :
  float_of_str "007" = Ok (float_div_Z 7 1)
  /\ float_of_str "1." = Ok (float_div_Z 1 1)
  /\ float_of_str ".5" = Ok (float_div_Z 5 10)
  /\ float_of_str "" = Raise ValueError
  /\ float_of_str "." = Raise ValueError
  /\ float_of_str "1.2.3" = Raise ValueError.
Proof. repeat split. Qed.

Lemma clean_numeric_number (v : pyval) :
  isinstance_int_float v = true -> clean_numeric v = Ok v.
Proof. destruct v; simpl; intros H; try discriminate H; reflexivity. Qed.

Lemma clean_numeric_str (s : string) :
  clean_numeric (VStr s) =
  if str_in (strip s) sentinels then Ok (VInt 0)
  else try_except (f <- float_of_str (re_sub_non_numeric s) ;; Ok (VFloat f))
                  (Ok (VInt 0)).
Proof. reflexivity. Qed.

Lemma clean_numeric_total (v : pyval) : exists r, clean_numeric v = Ok r.
Proof.
  destruct v; try (eexists; reflexivity).
  - rewrite clean_numeric_str. destruct (str_in (strip s) sentinels); eauto.
    apply try_except_ok.
  - apply try_except_ok.
  - apply try_except_ok.
Qed.

(** What [clean_numeric] returns is a number. *)
Lemma clean_numeric_returns_number (v r : pyval) :
  clean_numeric v = Ok r -> isinstance_int_float r = true.
Proof.
  assert (T : forall m : result string,
             try_except (text <- m ;;
                         f <- float_of_str (re_sub_non_numeric text) ;; Ok (VFloat f))
                        (Ok (VInt 0)) = Ok r ->
             isinstance_int_float r = true).
  { intros [text | e]; cbn [bind]; [| intros E; inversion E; reflexivity].
    destruct (float_of_str (re_sub_non_numeric text)); simpl;
      intros E; inversion E; reflexivity. }
  destruct v; try (intros H; inversion H; subst; reflexivity).
  - rewrite clean_numeric_str. destruct (str_in (strip s) sentinels).
    + intros H; inversion H; reflexivity.
    + apply (T (Ok s)).
  - apply T.
  - apply T.
Qed.

(** C5: [clean_numeric] gives 0 for None, for the sentinel strings and for
    strings whose digits and dots do not form a number; for every other
    string the float read from its digits and dots; a number unchanged; and
    it never raises.  "1,234.56" gives the binary64 nearest to 1234.56. *)
Theorem clean_numeric_spec :
  clean_numeric VNone = Ok (VInt 0)
  /\ (forall s, str_in (strip s) sentinels = true ->
             clean_numeric (VStr s) = Ok (VInt 0))
  /\ (forall s e, float_of_str (re_sub_non_numeric s) = Raise e ->
               clean_numeric (VStr s) = Ok (VInt 0))
  /\ (forall s f, str_in (strip s) sentinels = false ->
               float_of_str (re_sub_non_numeric s) = Ok f ->
               clean_numeric (VStr s) = Ok (VFloat f))
  /\ (forall v, isinstance_int_float v = true -> clean_numeric v = Ok v)
  /\ (forall v, exists r, clean_numeric v = Ok r)
  /\ clean_numeric (VStr "1,234.56") = Ok (VFloat (float_div_Z 123456 100))
  /\ float_div_Z 123456 100 = S754_finite false 5429652300748554 (-42).
Proof.
  repeat split.
  - intros s H. rewrite clean_numeric_str, H. reflexivity.
  - intros s e H. rewrite clean_numeric_str, H.
    destruct (str_in (strip s) sentinels); reflexivity.
  - intros s f Hs H. rewrite clean_numeric_str, Hs, H. reflexivity.
  - exact clean_numeric_number.
  - exact clean_numeric_total.
Qed.

Lemma clean_numeric_spec_witness :
  clean_numeric (VStr " null ") = Ok (VInt 0)
  /\ clean_numeric (VStr "n.a.") = Ok (VInt 0)
  /\ clean_numeric (VStr "NGN 2,500") = Ok (VFloat (float_div_Z 2500 1))
  /\ clean_numeric (VBool true) = Ok (VBool true).
Proof.
  destruct clean_numeric_spec as [_ [H1 [H2 [H3 [H4 _]]]]].
  split; [| split; [| split]].
  - apply H1. reflexivity.
  - apply (H2 "n.a." ValueError). reflexivity.
  - apply H3; reflexivity.
  - apply H4. reflexivity.
Defined.

(** ** Character classes and [strip] *)

Ltac to_props :=
  repeat rewrite ?andb_true_iff, ?orb_true_iff, ?negb_true_iff,
    ?N.leb_le, ?N.eqb_eq, ?Ascii.eqb_eq in *.

Lemma isdigit_not_space (c : ascii) : isdigit c = true -> isspace c = false.
Proof.
  unfold isdigit, isspace. intros H. apply not_true_is_false. intros S.
  to_props. lia.
Qed.

Lemma between_digit (lo hi c : ascii) :
  isdigit lo = true -> isdigit hi = true -> between lo hi c = true ->
  isdigit c = true.
Proof. unfold isdigit, between. intros. to_props. lia. Qed.

Lemma only_digit (x c : ascii) :
  isdigit x = true -> only x c = true -> isdigit c = true.
Proof. unfold only. intros Hx H. to_props. subst c. exact Hx. Qed.

Lemma lstrip_keeps_digit (s : string) :
  str_exists isdigit s = true -> str_exists isdigit (lstrip s) = true.
Proof.
  induction s as [| c r IH]; simpl; [trivial |].
  destruct (isspace c) eqn:Sp; [| trivial].
  destruct (isdigit c) eqn:D; simpl; [| exact IH].
  apply isdigit_not_space in D. congruence.
Qed.

Lemma rstrip_keeps_digit (s : string) :
  str_exists isdigit s = true -> str_exists isdigit (rstrip s) = true.
Proof.
  induction s as [| c r IH]; simpl; [trivial |].
  destruct (isdigit c) eqn:D; simpl.
  - intros _. rewrite (isdigit_not_space c D). simpl. rewrite D. reflexivity.
  - intros H. specialize (IH H).
    destruct (rstrip r) as [| c' r'] eqn:R; [discriminate IH |].
    rewrite andb_false_r. simpl. rewrite D. exact IH.
Qed.

Lemma strip_keeps_digit (s : string) :
  str_exists isdigit s = true -> str_exists isdigit (strip s) = true.
Proof.
  intros H. unfold strip. apply rstrip_keeps_digit, lstrip_keeps_digit, H.
Qed.

(** A string with a digit is neither empty nor blank nor a lone dash. *)
Lemma digit_not_blank (s : string) :
  str_exists isdigit s = true ->
  truthy (VStr s) = true /\ str_in (strip s) [""; "-"] = false.
Proof.
  intros H. split.
  - destruct s; [discriminate H | reflexivity].
  - apply strip_keeps_digit in H.
    destruct (strip s) as [| c [| c' r]] eqn:E; [discriminate H | idtac | idtac].
    + simpl in *. rewrite orb_false_r in *.
      destruct (Ascii.eqb_spec c "-"); [subst c; discriminate H | reflexivity].
    + simpl. rewrite orb_false_r. destruct (Ascii.eqb c "-"); reflexivity.
Qed.

(** ** [strptime] with the birthdate format *)

Lemma tokens_birthdate :
  tokens birthdate_format = [Dir "d"; Lit "/"; Dir "m"; Lit "/"; Dir "Y"].
Proof. reflexivity. Qed.

(** The day group starts the match, and each of its alternatives needs a
    digit in the first two characters. *)
Lemma day_group_needs_digit (s : string) :
  str_exists isdigit s = false -> match_alts (directive "d") s = [].
Proof.
  intros H. destruct s as [| c r]; [reflexivity |].
  simpl in H. apply orb_false_iff in H. destruct H as [Hc Hr].
  assert (N : forall p : cclass, (p c = true -> isdigit c = true) -> p c = false).
  { intros p Hp. destruct (p c); [| reflexivity]. rewrite Hp in Hc; [discriminate | reflexivity]. }
  unfold match_alts, directive. simpl.
  rewrite (N (only "3")) by (apply only_digit; reflexivity).
  rewrite (N (between "1" "2")) by (apply between_digit; reflexivity).
  rewrite (N (only "0")) by (apply only_digit; reflexivity).
  rewrite (N (between "1" "9")) by (apply between_digit; reflexivity).
  destruct (only " " c); [| reflexivity].
  destruct r as [| c' r']; [reflexivity |].
  simpl in Hr. apply orb_false_iff in Hr. destruct Hr as [Hc' _].
  destruct (between "1" "9" c') eqn:B; [| reflexivity].
  apply between_digit in B; [congruence | reflexivity | reflexivity].
Qed.

Lemma strptime_birthdate_has_digit (s : string) (b : datetime) :
  strptime (VStr s) birthdate_format = Ok b -> str_exists isdigit s = true.
Proof.
  intros H. destruct (str_exists isdigit s) eqn:D; [reflexivity |].
  unfold strptime in H. rewrite tokens_birthdate in H.
  cbn [match_tokens] in H. rewrite (day_group_needs_digit s D) in H.
  discriminate H.
Qed.

Lemma code_digit_char (k : Z) : 0 <= k <= 9 -> code (digit_char k) = Z.to_N (48 + k).
Proof.
  intros H. unfold code, digit_char. apply N_ascii_embedding. lia.
Qed.

Lemma isdigit_digit_char (k : Z) : 0 <= k <= 9 -> isdigit (digit_char k) = true.
Proof.
  intros H. unfold isdigit. rewrite (code_digit_char k H). to_props. lia.
Qed.

Lemma digit_val_digit_char (k : Z) : 0 <= k <= 9 -> digit_val (digit_char k) = k.
Proof.
  intros H. unfold digit_val. rewrite (code_digit_char k H). lia.
Qed.

Lemma strip_digits (s : string) : str_forall isdigit s = true -> strip s = s.
Proof.
  intros H. unfold strip.
  assert (L : lstrip s = s).
  { destruct s as [| c r]; [reflexivity |]. simpl in *.
    apply andb_true_iff in H. destruct H as [D _].
    rewrite (isdigit_not_space c D). reflexivity. }
  rewrite L. clear L.
  induction s as [| c r IH]; [reflexivity |]. simpl in *.
  apply andb_true_iff in H. destruct H as [D R].
  rewrite (isdigit_not_space c D), (IH R). reflexivity.
Qed.

(** The day group followed by a slash: the two-digit alternative that
    matches is the first match, and the one-digit alternative tried after
    it stops before a digit, not a slash. *)
Lemma match_day (n : nat) (ts : list token) (r : string) :
  (1 <= n <= 31)%nat ->
  match_tokens (Dir "d" :: Lit "/" :: ts) (two_digits (Z.of_nat n) ++ String "/" r)
  = map (fun gr : groups * string => (("d"%char, two_digits (Z.of_nat n)) :: fst gr, snd gr))
        (match_tokens ts r)
  /\ digits_val (strip (two_digits (Z.of_nat n))) = Z.of_nat n.
Proof.
  intros H.
  do 32 (destruct n as [| n];
         [first [lia | split; [cbn; rewrite ?app_nil_r; reflexivity | reflexivity]] |]).
  lia.
Qed.

Lemma match_month (n : nat) (ts : list token) (r : string) :
  (1 <= n <= 12)%nat ->
  match_tokens (Dir "m" :: Lit "/" :: ts) (two_digits (Z.of_nat n) ++ String "/" r)
  = map (fun gr : groups * string => (("m"%char, two_digits (Z.of_nat n)) :: fst gr, snd gr))
        (match_tokens ts r)
  /\ digits_val (strip (two_digits (Z.of_nat n))) = Z.of_nat n.
Proof.
  intros H.
  do 13 (destruct n as [| n];
         [first [lia | split; [cbn; rewrite ?app_nil_r; reflexivity | reflexivity]] |]).
  lia.
Qed.

Lemma year_digits (y : Z) :
  0 <= y <= 9999 ->
  0 <= y / 1000 <= 9 /\ 0 <= y / 100 mod 10 <= 9
  /\ 0 <= y / 10 mod 10 <= 9 /\ 0 <= y mod 10 <= 9
  /\ 10 * (10 * (10 * (y / 1000) + y / 100 mod 10) + y / 10 mod 10) + y mod 10 = y.
Proof.
  intros H. Z.div_mod_to_equations. lia.
Qed.

Lemma match_year (y : Z) :
  0 <= y <= 9999 ->
  match_tokens [Dir "Y"] (four_digits y) = [([("Y"%char, four_digits y)], "")]
  /\ digits_val (strip (four_digits y)) = y.
Proof.
  intros H. destruct (year_digits y H) as [A [B [C [D E]]]].
  assert (F : str_forall isdigit (four_digits y) = true).
  { unfold four_digits. simpl.
    rewrite !isdigit_digit_char by assumption. reflexivity. }
  split.
  - unfold four_digits in *. simpl in F. to_props.
    destruct F as [F1 [F2 [F3 [F4 _]]]].
    cbn. rewrite F1, F2, F3, F4. reflexivity.
  - rewrite (strip_digits _ F). unfold four_digits, digits_val.
    cbn [digits_val_acc]. rewrite !digit_val_digit_char by assumption. lia.
Qed.

(** A valid date written dd/mm/yyyy parses back to itself. *)
Lemma strptime_format_birthdate (y m d : Z) :
  valid (mk_datetime y m d 0 0 0 0) = true ->
  strptime (VStr (format_birthdate y m d)) birthdate_format
  = Ok (mk_datetime y m d 0 0 0 0).
Proof.
  intros V. pose proof V as V'. unfold valid in V'. cbn [year month day] in V'.
  rewrite !andb_true_iff, !Z.leb_le in V'.
  destruct V' as [[[[[[[[[[[Y1 Y2] M1] M2] D1] D2] _] _] _] _] _] _].
  assert (D3 : d <= 31).
  { unfold days_in_month in D2.
    destruct (m =? 2); [destruct (is_leap y); lia |].
    destruct ((m =? 4) || (m =? 6) || (m =? 9) || (m =? 11)); lia. }
  destruct (match_day (Z.to_nat d) [Dir "m"; Lit "/"; Dir "Y"]
              (two_digits m ++ String "/" (four_digits y))) as [Pd Fd]; [lia |].
  destruct (match_month (Z.to_nat m) [Dir "Y"] (four_digits y)) as [Pm Fm]; [lia |].
  destruct (match_year y) as [Py Fy]; [lia |].
  rewrite !Z2Nat.id in * by lia.
  unfold strptime. rewrite tokens_birthdate.
  unfold format_birthdate.
  change (two_digits d ++ "/" ++ two_digits m ++ "/" ++ four_digits y)%string
    with (two_digits d ++ String "/" (two_digits m ++ String "/" (four_digits y)))%string.
  rewrite Pd, Pm, Py. cbn [map fst snd].
  unfold field. cbn [group Ascii.eqb Bool.eqb].
  rewrite Fd, Fm, Fy, V. reflexivity.
Qed.

(** ** The age calculator *)

Lemma calculate_age_not_blank (now : datetime) (s : string) :
  truthy (VStr s) = true -> str_in (strip s) [""; "-"] = false ->
  calculate_age now (VStr s) =
  try_except
    (birthdate <- strptime (VStr s) birthdate_format ;;
     Ok (VInt (year now - year birthdate - Z.b2z (month_day_lt now birthdate))))
    (Ok VNone).
Proof.
  intros T B. unfold calculate_age. rewrite T. cbn [negb method_strip bind].
  rewrite B. reflexivity.
Qed.

Lemma calculate_age_parsed (now : datetime) (s : string) (b : datetime) :
  strptime (VStr s) birthdate_format = Ok b ->
  calculate_age now (VStr s) =
  Ok (VInt (year now - year b - (if month_day_lt now b then 1 else 0))).
Proof.
  intros P.
  destruct (digit_not_blank s (strptime_birthdate_has_digit s b P)) as [T B].
  rewrite (calculate_age_not_blank now s T B), P. simpl.
  destruct (month_day_lt now b); reflexivity.
Qed.

(** C8: for a birthdate string that parses as day/month/year, and so for
    every valid date written dd/mm/yyyy, the age is the difference of the
    years, less one exactly when today's (month, day) is before the birth
    (month, day). *)
Theorem calculate_age_well_formed (now : datetime) :
  (forall s b,
      strptime (VStr s) birthdate_format = Ok b ->
      calculate_age now (VStr s) =
      Ok (VInt (year now - year b - (if month_day_lt now b then 1 else 0))))
  /\ (forall y m d,
      valid (mk_datetime y m d 0 0 0 0) = true ->
      calculate_age now (VStr (format_birthdate y m d)) =
      Ok (VInt (year now - y
                - (if month_day_lt now (mk_datetime y m d 0 0 0 0) then 1 else 0))))
  /\ (forall b,
      month_day_lt now b = true <->
      month now < month b \/ (month now = month b /\ day now < day b)).
Proof.
  split; [| split].
  - apply calculate_age_parsed.
  - intros y m d V.
    apply (calculate_age_parsed now _ (mk_datetime y m d 0 0 0 0)).
    apply strptime_format_birthdate, V.
  - intros b. unfold month_day_lt.
    rewrite orb_true_iff, andb_true_iff, !Z.ltb_lt, Z.eqb_eq. reflexivity.
Qed.

Lemma calculate_age_well_formed_witness :
  calculate_age (mk_datetime 2024 6 14 9 30 0 0) (VStr "15/06/1990") = Ok (VInt 33)
  /\ calculate_age (mk_datetime 2024 6 16 9 30 0 0) (VStr "15/06/1990") = Ok (VInt 34)
  /\ calculate_age (mk_datetime 2024 6 15 9 30 0 0) (VStr (format_birthdate 1990 6 15))
     = Ok (VInt 34).
Proof.
  split; [| split].
  - exact (proj1 (calculate_age_well_formed (mk_datetime 2024 6 14 9 30 0 0))
                 "15/06/1990" (mk_datetime 1990 6 15 0 0 0 0) eq_refl).
  - exact (proj1 (calculate_age_well_formed (mk_datetime 2024 6 16 9 30 0 0))
                 "15/06/1990" (mk_datetime 1990 6 15 0 0 0 0) eq_refl).
  - exact (proj1 (proj2 (calculate_age_well_formed (mk_datetime 2024 6 15 9 30 0 0)))
                 1990 6 15 eq_refl).
Defined.

Lemma lstrip_blank (s : string) : str_forall isspace s = true -> lstrip s = "".
Proof.
  induction s as [| c r IH]; simpl; [reflexivity |].
  destruct (isspace c); simpl; [exact IH | discriminate].
Qed.

Lemma strip_blank (s : string) : str_forall isspace s = true -> strip s = "".
Proof. intros H. unfold strip. rewrite (lstrip_blank s H). reflexivity. Qed.

Lemma calculate_age_falsy (now : datetime) (v : pyval) :
  truthy v = false -> calculate_age now v = Ok VNone.
Proof. intros H. unfold calculate_age. rewrite H. reflexivity. Qed.

Lemma calculate_age_blank (now : datetime) (s : string) :
  str_in (strip s) [""; "-"] = true -> calculate_age now (VStr s) = Ok VNone.
Proof.
  intros H. unfold calculate_age.
  destruct (truthy (VStr s)); cbn [negb bind method_strip]; [rewrite H |]; reflexivity.
Qed.

Lemma calculate_age_str_total (now : datetime) (s : string) :
  exists r, calculate_age now (VStr s) = Ok r.
Proof.
  unfold calculate_age.
  destruct (truthy (VStr s)); cbn [negb bind method_strip]; [| eauto].
  destruct (str_in (strip s) [""; "-"]); [eauto |].
  apply try_except_ok.
Qed.

(** C4, as amended: for a string that is empty, blank, a dash or does not
    parse as day/month/year, and for a falsy value of any type,
    [calculate_age] returns None; on a string it never raises. *)
Theorem calculate_age_malformed (now : datetime) :
  (forall v, truthy v = false -> calculate_age now v = Ok VNone)
  /\ (forall s, str_forall isspace s = true -> calculate_age now (VStr s) = Ok VNone)
  /\ (forall s, str_in (strip s) [""; "-"] = true ->
             calculate_age now (VStr s) = Ok VNone)
  /\ (forall s e, strptime (VStr s) birthdate_format = Raise e ->
               calculate_age now (VStr s) = Ok VNone)
  /\ (forall s, exists r, calculate_age now (VStr s) = Ok r).
Proof.
  split; [| split; [| split; [| split]]].
  - apply calculate_age_falsy.
  - intros s H. apply calculate_age_blank. rewrite (strip_blank s H). reflexivity.
  - apply calculate_age_blank.
  - intros s e H.
    destruct (str_in (strip s) [""; "-"]) eqn:B; [apply calculate_age_blank, B |].
    destruct (truthy (VStr s)) eqn:T; [| apply calculate_age_falsy, T].
    rewrite (calculate_age_not_blank now s T B).
    rewrite H. reflexivity.
  - apply calculate_age_str_total.
Qed.

Lemma calculate_age_malformed_witness :
  let now := mk_datetime 2024 6 15 12 0 0 0 in
  calculate_age now VNone = Ok VNone
  /\ calculate_age now (VStr "") = Ok VNone
  /\ calculate_age now (VStr "   ") = Ok VNone
  /\ calculate_age now (VStr " - ") = Ok VNone
  /\ calculate_age now (VStr "1990-06-15") = Ok VNone
  /\ calculate_age now (VStr "31/02/1990") = Ok VNone.
Proof.
  intros now.
  destruct (calculate_age_malformed now) as [H1 [H2 [H3 [H4 _]]]].
  split; [| split; [| split; [| split; [| split]]]].
  - apply (H1 VNone). reflexivity.
  - apply (H1 (VStr "")). reflexivity.
  - apply (H2 "   "). reflexivity.
  - apply (H3 " - "). reflexivity.
  - apply (H4 "1990-06-15" ValueError). reflexivity.
  - apply (H4 "31/02/1990" ValueError). reflexivity.
Defined.

(** C4 as stated fails on a value that is neither falsy nor a string: the
    guard calls [strip] on it before the [try]. *)
Lemma calculate_age_non_string_raises :
  calculate_age (mk_datetime 2024 6 15 12 0 0 0) (VInt 19900615) = Raise AttributeError
  /\ ~ (calculate_age (mk_datetime 2024 6 15 12 0 0 0) (VInt 19900615) = Ok VNone).
Proof. split; [reflexivity | discriminate]. Qed.

(** ** The section extractors *)

(** A sub-section the report does not have is read as the default the
    assembler passes to [get]. *)
Lemma get_missing (d : dict) (key : string) (default : pyval) :
  lookup key d = None -> get (VDict d) key default = Ok default.
Proof. intros H. simpl. rewrite H. reflexivity. Qed.

Lemma process_enquiry_history_falsy (now : datetime) (v : pyval) :
  truthy v = false -> process_enquiry_history now v = Ok default_enquiry_history.
Proof. intros H. unfold process_enquiry_history. rewrite H. reflexivity. Qed.

Lemma process_credit_agreements_falsy (v : pyval) :
  truthy v = false -> process_credit_agreements v = Ok default_credit_agreements.
Proof. intros H. unfold process_credit_agreements. rewrite H. reflexivity. Qed.

Lemma process_delinquency_falsy (v : pyval) :
  truthy v = false -> process_delinquency v = Ok default_delinquency.
Proof. intros H. unfold process_delinquency. rewrite H. reflexivity. Qed.

Lemma process_guarantor_info_falsy (v : pyval) :
  truthy v = false -> process_guarantor_info v (VDict []) = Ok default_guarantor_info.
Proof. intros H. unfold process_guarantor_info. simpl. rewrite H. reflexivity. Qed.

(** C1, as amended: a sub-section that is missing reaches its extractor as
    the empty mapping or the empty sequence, and the extractor then returns
    its default-filled mapping without raising; the extractors that test
    their input for truth first (enquiry history, credit agreements,
    delinquency, and guarantor details) do so on every falsy input. *)
Theorem extractors_defaults (now : datetime) :
  (forall cd : dict,
      lookup "accountrating" cd = None ->
      (s <- get (VDict cd) "accountrating" (VDict []) ;; process_account_ratings s)
      = Ok default_account_ratings)
  /\ (forall cd : dict,
      lookup "creditaccountsummary" cd = None ->
      (s <- get (VDict cd) "creditaccountsummary" (VDict []) ;; process_credit_summary s)
      = Ok default_credit_summary)
  /\ (forall cd : dict,
      lookup "personaldetailssummary" cd = None ->
      (s <- get (VDict cd) "personaldetailssummary" (VDict []) ;;
       process_personal_details now s)
      = Ok default_personal_details)
  /\ (forall v, truthy v = false ->
             process_enquiry_history now v = Ok default_enquiry_history)
  /\ (forall v, truthy v = false ->
             process_credit_agreements v = Ok default_credit_agreements)
  /\ (forall v, truthy v = false -> process_delinquency v = Ok default_delinquency)
  /\ (forall v, truthy v = false ->
             process_guarantor_info v (VDict []) = Ok default_guarantor_info)
  /\ (forall a : pyval,
      extract_features now (VDict [("application_id", a); ("data", VDict [])])
      = Ok (default_record a)).
Proof.
  split; [| split; [| split; [| split; [| split; [| split; [| split]]]]]].
  - intros cd H. rewrite (get_missing cd _ _ H). reflexivity.
  - intros cd H. rewrite (get_missing cd _ _ H). reflexivity.
  - intros cd H. rewrite (get_missing cd _ _ H). reflexivity.
  - apply process_enquiry_history_falsy.
  - apply process_credit_agreements_falsy.
  - apply process_delinquency_falsy.
  - apply process_guarantor_info_falsy.
  - intros a. reflexivity.
Qed.

Lemma extractors_defaults_witness :
  let now := mk_datetime 2024 6 15 12 0 0 0 in
  let cd : dict := [("guarantorcount", VDict [("accounts", VStr "2")])] in
  (s <- get (VDict cd) "accountrating" (VDict []) ;; process_account_ratings s)
  = Ok default_account_ratings
  /\ (s <- get (VDict cd) "creditaccountsummary" (VDict []) ;; process_credit_summary s)
     = Ok default_credit_summary
  /\ (s <- get (VDict cd) "personaldetailssummary" (VDict []) ;;
      process_personal_details now s)
     = Ok default_personal_details
  /\ process_enquiry_history now VNone = Ok default_enquiry_history
  /\ process_credit_agreements (VStr "") = Ok default_credit_agreements
  /\ process_delinquency (VList []) = Ok default_delinquency
  /\ process_guarantor_info (VInt 0) (VDict []) = Ok default_guarantor_info.
Proof.
  intros now cd.
  destruct (extractors_defaults now) as [H1 [H2 [H3 [H4 [H5 [H6 [H7 _]]]]]]].
  split; [| split; [| split; [| split; [| split; [| split]]]]].
  - apply (H1 cd). reflexivity.
  - apply (H2 cd). reflexivity.
  - apply (H3 cd). reflexivity.
  - apply (H4 VNone). reflexivity.
  - apply (H5 (VStr "")). reflexivity.
  - apply (H6 (VList [])). reflexivity.
  - apply (H7 (VInt 0)). reflexivity.
Defined.

(** C1 as stated fails: an input of the wrong shape that is not falsy
    raises in every extractor. *)
Lemma extractors_wrong_shape_raise :
  let now := mk_datetime 2024 6 15 12 0 0 0 in
  process_account_ratings (VStr "n/a") = Raise AttributeError
  /\ process_credit_summary (VList [VInt 1]) = Raise AttributeError
  /\ process_enquiry_history now (VInt 3) = Raise TypeError
  /\ process_credit_agreements (VStr "n/a") = Raise AttributeError
  /\ process_delinquency (VStr "n/a") = Raise AttributeError
  /\ process_personal_details now (VStr "n/a") = Raise AttributeError
  /\ process_guarantor_info (VDict []) (VList []) = Raise AttributeError.
Proof. repeat split. Qed.

(** ** The assembler *)

Lemma extract_features_no_data (now : datetime) (d : dict) :
  has_key "data" d = false ->
  extract_features now (VDict d) =
  Ok [("application_id",
       match lookup "application_id" d with Some v => v | None => VNone end)].
Proof.
  intros H. unfold extract_features. cbn [get].
  destruct (lookup "application_id" d) as [v |]; cbn [bind];
    (destruct (truthy (VDict d)); cbn [negb bind contains_key];
     [rewrite H |]; reflexivity).
Qed.

(** C3 at the failing input: on None the identifier is read with [get]
    before the test for a falsy report is reached.  A mapping without
    [data], the empty one included, gives the record with the identifier
    alone. *)
Theorem extract_features_none_raises (now : datetime) :
  extract_features now VNone = Raise AttributeError
  /\ extract_features now (VDict []) = Ok [("application_id", VNone)]
  /\ extract_features now (VDict [("application_id", VStr "A1")])
     = Ok [("application_id", VStr "A1")].
Proof. repeat split. Qed.

(** ** The keys of the feature mappings *)

Ltac ok_inv H :=
  repeat (let a := fresh "a" in
          let Ha := fresh "Ha" in
          apply bind_ok_inv in H; destruct H as [a [Ha H]]);
  try (injection H as H).

Lemma process_account_ratings_keys (v : pyval) (part : dict) :
  process_account_ratings v = Ok part -> keys part = keys default_account_ratings.
Proof.
  unfold process_account_ratings. intros H. ok_inv H. subst part. reflexivity.
Qed.

Lemma process_credit_summary_keys (v : pyval) (part : dict) :
  process_credit_summary v = Ok part -> keys part = keys default_credit_summary.
Proof.
  unfold process_credit_summary. intros H. ok_inv H. subst part. reflexivity.
Qed.

Lemma process_enquiry_history_keys (now : datetime) (v : pyval) (part : dict) :
  process_enquiry_history now v = Ok part -> keys part = keys default_enquiry_history.
Proof.
  unfold process_enquiry_history. intros H.
  destruct (negb (truthy v)); ok_inv H; subst part; reflexivity.
Qed.

Lemma process_credit_agreements_keys (v : pyval) (part : dict) :
  process_credit_agreements v = Ok part -> keys part = keys default_credit_agreements.
Proof.
  unfold process_credit_agreements. intros H.
  destruct (negb (truthy v)); [ok_inv H; subst part; reflexivity |].
  apply bind_ok_inv in H. destruct H as [accounts [_ H]].
  apply bind_ok_inv in H. destruct H as [st [_ H]].
  destruct (0 <? valid_durations st); ok_inv H; subst part; reflexivity.
Qed.

Lemma process_delinquency_keys (v : pyval) (part : dict) :
  process_delinquency v = Ok part -> keys part = keys default_delinquency.
Proof.
  unfold process_delinquency. intros H.
  destruct (negb (truthy v)); ok_inv H; subst part; reflexivity.
Qed.

Lemma process_personal_details_keys (now : datetime) (v : pyval) (part : dict) :
  process_personal_details now v = Ok part -> keys part = keys default_personal_details.
Proof.
  unfold process_personal_details. intros H. ok_inv H. subst part. reflexivity.
Qed.

Lemma process_guarantor_info_keys (v c : pyval) (part : dict) :
  process_guarantor_info v c = Ok part -> keys part = keys default_guarantor_info.
Proof.
  unfold process_guarantor_info. intros H.
  apply bind_ok_inv in H. destruct H as [n [_ H]].
  destruct (truthy v); [| ok_inv H; subst part; reflexivity].
  apply bind_ok_inv in H. destruct H as [items [_ H]].
  destruct (existsb _ items); ok_inv H; subst part; reflexivity.
Qed.

Lemma set_item_head (k k0 : string) (v v0 : pyval) (rest : dict) :
  k <> k0 -> set_item k v ((k0, v0) :: rest) = (k0, v0) :: set_item k v rest.
Proof.
  intros N. simpl. destruct (String.eqb_spec k k0); [contradiction | reflexivity].
Qed.

Lemma update_head (part : dict) (k0 : string) (v0 : pyval) (rest : dict) :
  ~ In k0 (keys part) ->
  update ((k0, v0) :: rest) part = (k0, v0) :: update rest part.
Proof.
  unfold update. revert rest.
  induction part as [| [k v] part IH]; intros rest N; [reflexivity |].
  simpl in N. simpl fold_left.
  rewrite <- IH by tauto.
  destruct (String.eqb_spec k k0) as [E | _]; [tauto | reflexivity].
Qed.

Ltac not_a_key K :=
  rewrite K; simpl; intros F;
  repeat (destruct F as [F | F]; [discriminate F |]); exact F.

(** The record of a report starts with the identifier read from it. *)
Lemma extract_features_head (now : datetime) (report : pyval) (f : dict) :
  extract_features now report = Ok f ->
  exists aid rest,
    get report "application_id" VNone = Ok aid /\ f = ("application_id", aid) :: rest.
Proof.
  unfold extract_features. intros H.
  apply bind_ok_inv in H. destruct H as [aid [Hid H]].
  exists aid. rewrite Hid.
  apply bind_ok_inv in H. destruct H as [stop [_ H]].
  destruct stop; [injection H as H; subst f; eauto |].
  apply bind_ok_inv in H. destruct H as [data [_ H]].
  apply bind_ok_inv in H. destruct H as [cd [_ H]].
  apply bind_ok_inv in H. destruct H as [s1 [_ H]].
  apply bind_ok_inv in H. destruct H as [p1 [K1 H]].
  apply bind_ok_inv in H. destruct H as [s2 [_ H]].
  apply bind_ok_inv in H. destruct H as [p2 [K2 H]].
  apply bind_ok_inv in H. destruct H as [s3 [_ H]].
  apply bind_ok_inv in H. destruct H as [p3 [K3 H]].
  apply bind_ok_inv in H. destruct H as [s4 [_ H]].
  apply bind_ok_inv in H. destruct H as [p4 [K4 H]].
  apply bind_ok_inv in H. destruct H as [s5 [_ H]].
  apply bind_ok_inv in H. destruct H as [p5 [K5 H]].
  apply bind_ok_inv in H. destruct H as [s6 [_ H]].
  apply bind_ok_inv in H. destruct H as [p6 [K6 H]].
  apply bind_ok_inv in H. destruct H as [s7 [_ H]].
  apply bind_ok_inv in H. destruct H as [c7 [_ H]].
  apply bind_ok_inv in H. destruct H as [p7 [K7 H]].
  injection H as H. subst f.
  apply process_account_ratings_keys in K1.
  apply process_credit_summary_keys in K2.
  apply process_enquiry_history_keys in K3.
  apply process_credit_agreements_keys in K4.
  apply process_delinquency_keys in K5.
  apply process_personal_details_keys in K6.
  apply process_guarantor_info_keys in K7.
  rewrite (update_head p1) by not_a_key K1.
  rewrite (update_head p2) by not_a_key K2.
  rewrite (update_head p3) by not_a_key K3.
  rewrite (update_head p4) by not_a_key K4.
  rewrite (update_head p5) by not_a_key K5.
  rewrite (update_head p6) by not_a_key K6.
  rewrite (update_head p7) by not_a_key K7.
  eauto.
Qed.

(** ** The batch builder *)

Lemma collect_features_ok (now : datetime) (reports : list pyval) :
  assembles now reports ->
  forall acc,
    collect_features now acc reports
    = Ok (acc ++ map (features_of now) (filter survives reports))%list.
Proof.
  unfold assembles.
  induction reports as [| r l IH]; intros A acc; simpl.
  - rewrite app_nil_r. reflexivity.
  - simpl in A. destruct (survives r) eqn:S; simpl.
    + inversion A as [| r' l' [f Hf] A']; subst.
      unfold features_of at 1. rewrite Hf. simpl.
      rewrite (IH A'), <- app_assoc. reflexivity.
    + apply IH, A.
Qed.

Lemma collect_features_none (now : datetime) (reports : list pyval) :
  filter survives reports = [] ->
  forall acc, collect_features now acc reports = Ok acc.
Proof.
  induction reports as [| r l IH]; intros E acc; simpl; [reflexivity |].
  simpl in E. destruct (survives r); [discriminate E | apply IH, E].
Qed.

Lemma add_columns_head (rec : dict) (c : string) (cols : list string) :
  exists cols',
    fold_left (fun cs kv => add_column (fst kv) cs) rec (c :: cols) = c :: cols'.
Proof.
  revert cols. induction rec as [| [k v] rec IH]; intros cols; simpl; [eauto |].
  destruct (k =? c)%string; apply IH.
Qed.

Lemma columns_head (records : list dict) (c : string) (cols : list string) :
  exists cols',
    fold_left (fun cols rec => fold_left (fun cs kv => add_column (fst kv) cs) rec cols)
              records (c :: cols) = c :: cols'.
Proof.
  revert cols. induction records as [| rec l IH]; intros cols; simpl; [eauto |].
  destruct (add_columns_head rec c cols) as [cols' E]. rewrite E. apply IH.
Qed.

(** When the first record starts with the identifier, so do the columns. *)
Lemma columns_of_head (v : pyval) (rest : dict) (records : list dict) :
  exists cols,
    columns_of ((("application_id", v) :: rest) :: records) = "application_id" :: cols.
Proof.
  unfold columns_of. simpl.
  destruct (add_columns_head rest "application_id" []) as [cols' E]. rewrite E.
  apply columns_head.
Qed.

Lemma survivor_features (now : datetime) (r : pyval) :
  survives r = true -> (exists f, extract_features now r = Ok f) ->
  exists rest,
    features_of now r = ("application_id",
                         match application_id_of r with Some v => v | None => VNone end)
                        :: rest
    /\ lookup "application_id" (features_of now r) = application_id_of r.
Proof.
  intros S [f Hf]. unfold features_of. rewrite Hf.
  destruct (extract_features_head now r f Hf) as [aid [rest [G E]]].
  destruct r; try discriminate S. simpl in S, G |- *. unfold has_key in S.
  destruct (lookup "application_id" d) as [v |]; [| discriminate S].
  injection G as G. subst aid f. exists rest. split; reflexivity.
Qed.

Lemma filter_survives_all (reports : list pyval) :
  Forall (fun r => survives r = true) (filter survives reports).
Proof. apply Forall_forall. intros r H. apply filter_In in H. apply H. Qed.

(** The loop does the same on a batch and on its surviving reports. *)
Lemma collect_features_survivors (now : datetime) (reports : list pyval) :
  forall acc,
    collect_features now acc reports
    = collect_features now acc (filter survives reports).
Proof.
  induction reports as [| r l IH]; intros acc; simpl; [reflexivity |].
  destruct (survives r) eqn:S; simpl.
  - rewrite S. simpl. destruct (extract_features now r); simpl; [apply IH | reflexivity].
  - apply IH.
Qed.

(** The table of a batch with at least one surviving report, none of which
    makes the assembler raise. *)
Lemma process_reports_frame (now : datetime) (reports : list pyval) :
  filter survives reports <> [] -> assembles now reports ->
  exists cols,
    columns_of (map (features_of now) (filter survives reports))
    = "application_id" :: cols
    /\ process_reports now (VList reports)
       = Ok (mk_frame
               (map label_of (filter survives reports))
               cols
               (map (fun r => map (fun c => cell_of (lookup c (features_of now r))) cols)
                    (filter survives reports))).
Proof.
  intros NE A. unfold process_reports. cbn [iter bind].
  rewrite (collect_features_ok now reports A). cbn [bind app].
  pose proof (filter_survives_all reports) as S. unfold assembles in A.
  destruct (filter survives reports) as [| r l] eqn:F; [contradiction |].
  inversion S as [| r' l' Sr Sl]; inversion A as [| r'' l'' Ar Al]; subst.
  destruct (survivor_features now r Sr Ar) as [rest [E _]].
  cbn [map]. unfold set_index, from_records. cbn [columns data].
  match goal with
  | |- context [columns_of ?x] =>
      assert (C : exists cols, columns_of x = "application_id" :: cols)
        by (rewrite E; apply columns_of_head);
      destruct C as [cols C]; rewrite !C
  end.
  exists cols. split; [reflexivity |].
  cbn [position]. rewrite String.eqb_refl. cbn [drop_nth].
  change (features_of now r :: map (features_of now) l)
    with (map (features_of now) (r :: l)).
  f_equal. f_equal.
  - rewrite !map_map.
    assert (M : forall rs,
               Forall (fun r => survives r = true) rs ->
               Forall (fun r => exists f, extract_features now r = Ok f) rs ->
               map (fun x => nth 0 (map (fun c => cell_of (lookup c (features_of now x)))
                                        ("application_id" :: cols)) Missing) rs
               = map label_of rs).
    { induction rs as [| x rs IH]; intros Sx Ax; [reflexivity |].
      inversion Sx; inversion Ax; subst. cbn [map nth].
      destruct (survivor_features now x) as [_ [_ L]]; [assumption | assumption |].
      rewrite L. f_equal. apply IH; assumption. }
    apply (M (r :: l)); assumption.
  - rewrite !map_map. reflexivity.
Qed.

(** C9: a batch no report of which passes the filter raises KeyError. *)
Theorem process_reports_no_survivor (now : datetime) (reports : list pyval) :
  filter survives reports = [] ->
  process_reports now (VList reports) = Raise KeyError.
Proof.
  intros E. unfold process_reports. cbn [iter bind].
  rewrite (collect_features_none now reports E). reflexivity.
Qed.

Lemma process_reports_no_survivor_witness :
  let now := mk_datetime 2024 6 15 12 0 0 0 in
  process_reports now (VList []) = Raise KeyError
  /\ process_reports now (VList [VStr "A1"; VDict [("data", VDict [])]; VNone])
     = Raise KeyError.
Proof.
  intros now. split.
  - apply (process_reports_no_survivor now []). reflexivity.
  - apply (process_reports_no_survivor now). reflexivity.
Defined.

(** C7, as amended: when at least one report passes the filter and the
    assembler raises on none of those that do, the table has exactly one
    row per report that is a mapping with [application_id], each row with
    one cell per column, and every other entry is dropped: the table is
    the one of the batch without them. *)
Theorem process_reports_rows (now : datetime) (reports : list pyval) :
  filter survives reports <> [] -> assembles now reports ->
  exists df,
    process_reports now (VList reports) = Ok df
    /\ n_rows df = List.length (filter survives reports)
    /\ List.length (data df) = List.length (filter survives reports)
    /\ Forall (fun row => List.length row = List.length (columns df)) (data df)
    /\ process_reports now (VList (filter survives reports)) = Ok df.
Proof.
  intros NE A.
  destruct (process_reports_frame now reports NE A) as [cols [_ P]].
  eexists. split; [exact P |]. split; [| split; [| split]].
  - unfold n_rows. cbn [index]. apply length_map.
  - cbn [data]. apply length_map.
  - cbn [data columns]. apply Forall_forall. intros row I.
    apply in_map_iff in I. destruct I as [r [E _]]. subst row. apply length_map.
  - rewrite <- P. unfold process_reports. cbn [iter bind].
    rewrite (collect_features_survivors now reports). reflexivity.
Qed.

Lemma process_reports_rows_witness :
  let now := mk_datetime 2024 6 15 12 0 0 0 in
  exists df,
    process_reports now
      (VList [ VDict [("application_id", VStr "A1"); ("data", VDict [])];
               VStr "not a report";
               VDict [("application_id", VStr "A2")] ]) = Ok df
    /\ n_rows df = 2%nat.
Proof.
  intros now.
  destruct (process_reports_rows now
              [ VDict [("application_id", VStr "A1"); ("data", VDict [])];
                VStr "not a report";
                VDict [("application_id", VStr "A2")] ]) as [df [P [N _]]].
  - simpl. discriminate.
  - unfold assembles. simpl. repeat constructor; eexists; reflexivity.
  - exists df. split; [exact P | exact N].
Defined.

(** C7 as stated fails: two reports are mappings with [application_id],
    yet there is no table, because the assembler raises on the second;
    and an empty batch gives no empty table. *)
Lemma process_reports_raises :
  let now := mk_datetime 2024 6 15 12 0 0 0 in
  let batch := [ VDict [("application_id", VStr "A1"); ("data", VDict [])];
                 VDict [("application_id", VStr "A2"); ("data", VStr "n/a")] ] in
  List.length (filter survives batch) = 2%nat
  /\ process_reports now (VList batch) = Raise AttributeError
  /\ ~ (exists df, process_reports now (VList batch) = Ok df /\ n_rows df = 2%nat)
  /\ ~ (exists df, process_reports now (VList []) = Ok df /\ n_rows df = 0%nat).
Proof.
  intros now batch. split; [reflexivity |]. split; [reflexivity |]. split.
  - intros [df [P _]]. discriminate P.
  - intros [df [P _]]. discriminate P.
Qed.

(** C2, as amended: the table has one row per report that passes the
    filter, in input order, and the label of each row is built from that
    report's identifier; nothing merges two rows, so reports that carry the
    same identifier each keep a row of their own. *)
Theorem process_reports_index (now : datetime) (reports : list pyval) :
  filter survives reports <> [] -> assembles now reports ->
  exists df,
    process_reports now (VList reports) = Ok df
    /\ n_rows df = List.length (filter survives reports)
    /\ index df = map label_of (filter survives reports)
    /\ (forall i j r1 r2,
          nth_error (filter survives reports) i = Some r1 ->
          nth_error (filter survives reports) j = Some r2 ->
          application_id_of r1 = application_id_of r2 ->
          exists id, application_id_of r1 = Some id
                     /\ nth_error (index df) i = Some (Built_from id)
                     /\ nth_error (index df) j = Some (Built_from id)).
Proof.
  intros NE A.
  destruct (process_reports_frame now reports NE A) as [cols [_ P]].
  eexists. split; [exact P |]. cbn [index]. split; [| split; [reflexivity |]].
  - unfold n_rows. cbn [index]. apply length_map.
  - intros i j r1 r2 H1 H2 E.
    assert (S1 : survives r1 = true).
    { apply nth_error_In in H1. apply filter_In in H1. apply H1. }
    destruct r1 as [| | | | | | d]; try discriminate S1.
    simpl in S1. unfold has_key in S1.
    destruct (lookup "application_id" d) as [id |] eqn:L; [| discriminate S1].
    exists id. split; [simpl; exact L |].
    rewrite !nth_error_map, H1, H2. cbn [option_map]. unfold label_of.
    rewrite <- E. simpl. rewrite L. split; reflexivity.
Qed.

Lemma process_reports_index_witness :
  let now := mk_datetime 2024 6 15 12 0 0 0 in
  exists df,
    process_reports now
      (VList [ VDict [("application_id", VStr "A1")];
               VDict [("application_id", VStr "A2")];
               VDict [("application_id", VStr "A1"); ("data", VDict [])] ]) = Ok df
    /\ n_rows df = 3%nat
    /\ index df
       = [Built_from (VStr "A1"); Built_from (VStr "A2"); Built_from (VStr "A1")].
Proof.
  intros now.
  destruct (process_reports_index now
              [ VDict [("application_id", VStr "A1")];
                VDict [("application_id", VStr "A2")];
                VDict [("application_id", VStr "A1"); ("data", VDict [])] ])
    as [df [P [N [I _]]]].
  - simpl. discriminate.
  - unfold assembles. simpl. repeat constructor; eexists; reflexivity.
  - exists df. split; [exact P |]. split; [exact N | exact I].
Defined.

(** C2 as stated fails: two reports with the identifier A1 give a table of
    two rows, both with a label built from A1. *)
Lemma process_reports_duplicate_rows :
  let now := mk_datetime 2024 6 15 12 0 0 0 in
  exists df,
    process_reports now
      (VList [ VDict [("application_id", VStr "A1")];
               VDict [("application_id", VStr "A1"); ("data", VDict [])] ]) = Ok df
    /\ index df = [Built_from (VStr "A1"); Built_from (VStr "A1")]
    /\ n_rows df = 2%nat.
Proof. intros now. eexists. split; [reflexivity |]. split; reflexivity. Qed.

(** ** The enquiry history *)

Lemma sub_days_le_90 (now t : datetime) :
  (sub_days now t <=? 90) = (elapsed_us now t <? 91 * day_us).
Proof.
  unfold sub_days, elapsed_us, day_us.
  set (x := micros now - micros t).
  destruct (Z.ltb_spec x (91 * 86400000000)) as [L | G].
  - apply Z.leb_le.
    assert (x / 86400000000 < 91) by (apply Z.div_lt_upper_bound; lia). lia.
  - apply Z.leb_gt.
    assert (91 <= x / 86400000000) by (apply Z.div_le_lower_bound; lia). lia.
Qed.

Lemma enquiry_step_counted (now : datetime) (c : Z) (e : pyval) :
  enquiry_step now c e = c + (if counted now e then 1 else 0).
Proof.
  unfold enquiry_step, enquiry_is_recent, counted, timestamp.
  destruct e; cbn [getitem bind]; try lia.
  destruct (lookup "daterequested" d) as [v |]; cbn [bind]; [| lia].
  fold enquiry_format. destruct (strptime v enquiry_format) as [t | x]; cbn [bind]; [| lia].
  rewrite sub_days_le_90. destruct (elapsed_us now t <? 91 * day_us); lia.
Qed.

Lemma fold_enquiry_step (now : datetime) (l : list pyval) (c : Z) :
  fold_left (enquiry_step now) l c = c + Z.of_nat (List.length (filter (counted now) l)).
Proof.
  revert c. induction l as [| e l IH]; intros c; simpl; [lia |].
  rewrite IH, enquiry_step_counted.
  destruct (counted now e); simpl List.length; lia.
Qed.

Lemma filter_length_insert {A : Type} (p : A -> bool) (pre post : list A) (x : A) :
  p x = true ->
  List.length (filter p (pre ++ x :: post)) = S (List.length (filter p (pre ++ post))).
Proof.
  intros H. rewrite !filter_app. cbn [filter]. rewrite H.
  rewrite !length_app. cbn [List.length]. lia.
Qed.

Lemma process_enquiry_history_list (now : datetime) (l : list pyval) :
  process_enquiry_history now (VList l)
  = Ok [("total_recent_enquiries", VInt (Z.of_nat (List.length (filter (counted now) l))))].
Proof.
  destruct l as [| e l]; [reflexivity |].
  unfold process_enquiry_history. cbn [truthy negb iter bind].
  rewrite fold_enquiry_step. reflexivity.
Qed.

(** C6, as amended: the count is the number of entries whose
    [daterequested] parses and lies less than 91 days back from now (the
    whole days elapsed are at most 90), whether in the past or not; an entry
    without a timestamp that parses is left out and the other entries are
    counted as without it; one entry 10 days back and one 200 days back
    count 1. *)
Theorem process_enquiry_history_count (now : datetime) (enquiries : list pyval) :
  process_enquiry_history now (VList enquiries)
  = Ok [("total_recent_enquiries",
         VInt (Z.of_nat (List.length (filter (counted now) enquiries))))]
  /\ (forall e t, timestamp e = Some t ->
                  (counted now e = true <-> sub_days now t <= 90)
                  /\ (sub_days now t <= 90 <-> elapsed_us now t < 91 * day_us))
  /\ (forall e, timestamp e = None -> counted now e = false)
  /\ (forall pre e post, timestamp e = None ->
        process_enquiry_history now (VList (pre ++ e :: post))
        = process_enquiry_history now (VList (pre ++ post)))
  /\ (forall e1 e2 t1 t2,
        timestamp e1 = Some t1 -> timestamp e2 = Some t2 ->
        elapsed_us now t1 = 10 * day_us -> elapsed_us now t2 = 200 * day_us ->
        process_enquiry_history now (VList [e1; e2])
        = Ok [("total_recent_enquiries", VInt 1)]).
Proof.
  split; [apply process_enquiry_history_list |].
  split; [| split; [| split]].
  - intros e t T. unfold counted. rewrite T, <- sub_days_le_90.
    rewrite Z.leb_le. split; [reflexivity |].
    rewrite <- Z.leb_le, sub_days_le_90, Z.ltb_lt. reflexivity.
  - intros e T. unfold counted. rewrite T. reflexivity.
  - intros pre e post T. rewrite !process_enquiry_history_list.
    rewrite !filter_app. cbn [filter]. unfold counted at 2. rewrite T. reflexivity.
  - intros e1 e2 t1 t2 T1 T2 E1 E2. rewrite process_enquiry_history_list.
    cbn [filter]. unfold counted. rewrite T1, T2, E1, E2. reflexivity.
Qed.

Lemma process_enquiry_history_count_witness :
  let now := mk_datetime 2024 6 15 12 0 0 0 in
  process_enquiry_history now
    (VList [ VDict [("daterequested", VStr "05/06/2024 12:00:00")];
             VDict [("daterequested", VStr "28/11/2023 12:00:00")] ])
  = Ok [("total_recent_enquiries", VInt 1)]
  /\ process_enquiry_history now
       (VList [ VDict [("daterequested", VStr "05/06/2024 12:00:00")];
                VDict [("daterequested", VStr "2024-06-14")];
                VStr "n/a" ])
     = process_enquiry_history now
         (VList [ VDict [("daterequested", VStr "05/06/2024 12:00:00")];
                  VStr "n/a" ]).
Proof.
  intros now.
  destruct (process_enquiry_history_count now []) as [_ [_ [_ [H1 H2]]]].
  split.
  - apply (H2 _ _ (mk_datetime 2024 6 5 12 0 0 0) (mk_datetime 2023 11 28 12 0 0 0));
      reflexivity.
  - apply (H1 [VDict [("daterequested", VStr "05/06/2024 12:00:00")]]
              (VDict [("daterequested", VStr "2024-06-14")]) [VStr "n/a"]).
    reflexivity.
Defined.

(** C6 as stated fails: an entry dated after now and an entry dated 90 days
    and 23 hours before now are both counted, and neither lies within the
    last 90 days. *)
Lemma enquiry_count_not_last_90_days :
  let now := mk_datetime 2024 6 15 12 0 0 0 in
  let enquiries := [ VDict [("daterequested", VStr "01/01/2025 00:00:00")];
                     VDict [("daterequested", VStr "16/03/2024 13:00:00")] ] in
  process_enquiry_history now (VList enquiries)
  = Ok [("total_recent_enquiries", VInt 2)]
  /\ List.length (filter (within_last_90_days now) enquiries) = 0%nat.
Proof. intros now enquiries. split; reflexivity. Qed.

(** C10: an entry whose timestamp lies after now is counted; the test
    bounds the elapsed days from above only. *)
Theorem future_enquiry_counted
  (now : datetime) (pre post : list pyval) (e : pyval) (t : datetime) :
  timestamp e = Some t -> micros now < micros t ->
  sub_days now t < 0
  /\ counted now e = true
  /\ exists n,
       process_enquiry_history now (VList (pre ++ post))
       = Ok [("total_recent_enquiries", VInt n)]
       /\ process_enquiry_history now (VList (pre ++ e :: post))
          = Ok [("total_recent_enquiries", VInt (n + 1))].
Proof.
  intros T F.
  assert (C : counted now e = true).
  { unfold counted. rewrite T. apply Z.ltb_lt. unfold elapsed_us, day_us. lia. }
  split; [| split; [exact C |]].
  - unfold sub_days. apply Z.div_lt_upper_bound; lia.
  - eexists. rewrite !process_enquiry_history_list. split; [reflexivity |].
    rewrite (filter_length_insert (counted now) pre post e C), Nat2Z.inj_succ.
    reflexivity.
Qed.

Lemma future_enquiry_counted_witness :
  let now := mk_datetime 2024 6 15 12 0 0 0 in
  process_enquiry_history now
    (VList [ VDict [("daterequested", VStr "28/11/2023 12:00:00")];
             VDict [("daterequested", VStr "01/01/2030 08:00:00")] ])
  = Ok [("total_recent_enquiries", VInt 1)].
Proof.
  intros now.
  destruct (future_enquiry_counted now
              [VDict [("daterequested", VStr "28/11/2023 12:00:00")]] []
              (VDict [("daterequested", VStr "01/01/2030 08:00:00")])
              (mk_datetime 2030 1 1 8 0 0 0)) as [_ [_ [n [P Q]]]].
  - reflexivity.
  - reflexivity.
  - injection P as P. rewrite <- P in Q. exact Q.
Defined.

(** * Further properties of the extractor *)

(** ** [clean_numeric] beyond its cases *)

Lemma numeric_not_space (c : ascii) : is_numeric_char c = true -> isspace c = false.
Proof.
  unfold is_numeric_char. intros H. apply orb_true_iff in H. destruct H as [D | P].
  - apply isdigit_not_space, D.
  - apply Ascii.eqb_eq in P. subst c. reflexivity.
Qed.

Lemma filter_lstrip (p : ascii -> bool) (s : string) :
  (forall c, p c = true -> isspace c = false) ->
  str_filter p (lstrip s) = str_filter p s.
Proof.
  intros N. induction s as [| c r IH]; simpl; [reflexivity |].
  destruct (isspace c) eqn:S; [| reflexivity].
  destruct (p c) eqn:P; [| exact IH].
  rewrite (N c P) in S. discriminate S.
Qed.

Lemma filter_rstrip (p : ascii -> bool) (s : string) :
  (forall c, p c = true -> isspace c = false) ->
  str_filter p (rstrip s) = str_filter p s.
Proof.
  intros N. induction s as [| c r IH]; simpl; [reflexivity |].
  destruct (isspace c && (rstrip r =? "")%string) eqn:E; simpl.
  - apply andb_true_iff in E. destruct E as [S R].
    apply String.eqb_eq in R. rewrite R in IH. simpl in IH.
    destruct (p c) eqn:P; [rewrite (N c P) in S; discriminate S | exact IH].
  - rewrite IH. reflexivity.
Qed.

Lemma filter_strip (p : ascii -> bool) (s : string) :
  (forall c, p c = true -> isspace c = false) ->
  str_filter p (strip s) = str_filter p s.
Proof.
  intros N. unfold strip. rewrite (filter_rstrip p _ N). apply filter_lstrip, N.
Qed.

(** A sentinel string has neither digit nor dot. *)
Lemma sentinel_not_numeric (s : string) :
  str_in (strip s) sentinels = true -> re_sub_non_numeric s = "".
Proof.
  intros H. unfold re_sub_non_numeric.
  rewrite <- (filter_strip is_numeric_char s numeric_not_space).
  unfold str_in, sentinels in H. simpl in H.
  repeat (apply orb_true_iff in H; destruct H as [H | H];
          [apply String.eqb_eq in H; rewrite H; reflexivity |]).
  discriminate H.
Qed.

Lemma clean_numeric_by_digits (s : string) :
  clean_numeric (VStr s)
  = Ok (match float_of_str (re_sub_non_numeric s) with
        | Ok f => VFloat f
        | Raise _ => VInt 0
        end).
Proof.
  rewrite clean_numeric_str.
  destruct (str_in (strip s) sentinels) eqn:S.
  - rewrite (sentinel_not_numeric s S). reflexivity.
  - destruct (float_of_str (re_sub_non_numeric s)); reflexivity.
Qed.

(** X1: on a string [clean_numeric] looks at the digits and dots only, so
    two strings with the same digits and dots in the same order get the
    same result, whatever separators, signs, letters or blanks they hold;
    the test for the sentinel strings changes nothing. *)
Theorem clean_numeric_digits_only (s1 s2 : string) :
  re_sub_non_numeric s1 = re_sub_non_numeric s2 ->
  clean_numeric (VStr s1) = clean_numeric (VStr s2)
  /\ clean_numeric (VStr s1)
     = Ok (match float_of_str (re_sub_non_numeric s1) with
           | Ok f => VFloat f
           | Raise _ => VInt 0
           end).
Proof.
  intros E. rewrite !clean_numeric_by_digits, E. split; reflexivity.
Qed.

Lemma clean_numeric_digits_only_witness :
  clean_numeric (VStr "NGN -1,234.56 ") = clean_numeric (VStr "1234.56")
  /\ clean_numeric (VStr "nu ll") = clean_numeric (VStr "null").
Proof.
  split.
  - apply (clean_numeric_digits_only "NGN -1,234.56 " "1234.56"). reflexivity.
  - apply (clean_numeric_digits_only "nu ll" "null"). reflexivity.
Defined.

(** X2: [clean_numeric] applied to its own result changes nothing. *)
Theorem clean_numeric_idempotent (v : pyval) :
  (r <- clean_numeric v ;; clean_numeric r) = clean_numeric v.
Proof.
  destruct (clean_numeric v) as [r | e] eqn:E; [| reflexivity].
  cbn [bind]. apply clean_numeric_number, (clean_numeric_returns_number v r E).
Qed.

Lemma shr_1_nonneg (mrs : shr_record) : 0 <= shr_m mrs -> 0 <= shr_m (shr_1 mrs).
Proof.
  destruct mrs as [m r s]. simpl. intros H.
  destruct m as [| p | p]; [simpl; lia | destruct p; simpl; lia | lia].
Qed.

Lemma iter_shr_1_nonneg (p : positive) (mrs : shr_record) :
  0 <= shr_m mrs -> 0 <= shr_m (iter_pos shr_1 p mrs).
Proof.
  revert mrs. induction p as [p IH | p IH |]; intros mrs H; simpl.
  - apply IH, IH, shr_1_nonneg, H.
  - apply IH, IH, H.
  - apply shr_1_nonneg, H.
Qed.

Lemma shr_fexp_nonneg (m e : Z) (l : location) :
  0 <= m -> 0 <= shr_m (fst (shr_fexp prec emax m e l)).
Proof.
  intros H. unfold shr_fexp, shr.
  assert (R : 0 <= shr_m (shr_record_of_loc m l)).
  { destruct l as [| []]; exact H. }
  destruct (fexp prec emax (Zdigits2 m + e) - e); simpl; try exact R.
  apply iter_shr_1_nonneg, R.
Qed.

Lemma round_nearest_even_nonneg (m : Z) (l : location) :
  0 <= m -> 0 <= round_nearest_even m l.
Proof.
  intros H. unfold round_nearest_even.
  destruct l as [| []]; try destruct (Z.even m); lia.
Qed.

Lemma binary_round_aux_not_negative (m e : Z) (l : location) :
  0 <= m -> not_negative (binary_round_aux prec emax false m e l) = true.
Proof.
  intros H. unfold binary_round_aux.
  pose proof (shr_fexp_nonneg m e l H) as H1.
  destruct (shr_fexp prec emax m e l) as [mrs' e']. simpl in H1.
  pose proof (shr_fexp_nonneg _ e' loc_Exact
                (round_nearest_even_nonneg _ (loc_of_shr_record mrs') H1)) as H2.
  destruct (shr_fexp prec emax _ e' loc_Exact) as [mrs'' e'']. simpl in H2.
  destruct (shr_m mrs'') as [| p | p]; [reflexivity | | lia].
  destruct (e'' <=? emax - prec); reflexivity.
Qed.

Lemma float_div_Z_not_negative (x y : Z) :
  0 <= x -> 0 < y -> not_negative (float_div_Z x y) = true.
Proof.
  intros Hx Hy. unfold float_div_Z.
  destruct y as [| q | q]; try lia.
  destruct x as [| p | p]; try lia; [reflexivity |].
  cbn [Z.ltb Z.compare Z.abs Z.to_pos SFdiv xorb].
  unfold SFdiv_core_binary.
  set (s := 0 - 0 - _).
  set (m' := match s with Z.pos _ => Z.shiftl (Z.pos p) s | 0 => Z.pos p | Z.neg _ => 0 end).
  assert (M : 0 <= m').
  { subst m'. destruct s; try lia. apply Z.shiftl_nonneg. lia. }
  pose proof (Z.div_pos m' (Z.pos q) M ltac:(lia)) as Q.
  unfold Z.div in Q.
  destruct (Z.div_eucl m' (Z.pos q)) as [d r]. simpl in Q.
  apply binary_round_aux_not_negative, Q.
Qed.

Lemma digits_val_acc_nonneg (s : string) (acc : Z) :
  str_forall isdigit s = true -> 0 <= acc -> 0 <= digits_val_acc acc s.
Proof.
  revert acc. induction s as [| c r IH]; intros acc D A; cbn [digits_val_acc];
    [exact A |].
  cbn [str_forall] in D. apply andb_true_iff in D. destruct D as [Dc Dr].
  apply IH; [exact Dr |].
  unfold isdigit in Dc. unfold digit_val. to_props. lia.
Qed.

Lemma str_forall_app (p : ascii -> bool) (a b : string) :
  str_forall p (a ++ b) = str_forall p a && str_forall p b.
Proof.
  induction a as [| c r IH]; simpl; [reflexivity |].
  rewrite IH, andb_assoc. reflexivity.
Qed.

Lemma float_of_str_not_negative (s : string) (f : float) :
  float_of_str s = Ok f -> not_negative f = true.
Proof.
  unfold float_of_str. destruct (split_dot s) as [ip rest].
  set (fp := match rest with Some fp => fp | None => "" end).
  destruct (str_forall isdigit ip && str_forall isdigit fp
            && negb ((ip ++ fp) =? "")%string) eqn:C; [| discriminate].
  intros H. injection H as H. subst f.
  apply andb_true_iff in C. destruct C as [C _].
  unfold float_of_decimal. apply float_div_Z_not_negative.
  - apply digits_val_acc_nonneg; [rewrite str_forall_app; exact C | lia].
  - apply Z.pow_pos_nonneg; lia.
Qed.

(** X3: on a string [clean_numeric] never returns a negative number or a
    NaN: a minus sign is dropped with the other characters, so the result
    is the int 0 or a float that is zero, positive or [inf]. *)
Theorem clean_numeric_str_not_negative (s : string) :
  clean_numeric (VStr s) = Ok (VInt 0)
  \/ exists f, clean_numeric (VStr s) = Ok (VFloat f) /\ not_negative f = true.
Proof.
  rewrite clean_numeric_by_digits.
  destruct (float_of_str (re_sub_non_numeric s)) as [f | e] eqn:E.
  - right. exists f. split; [reflexivity |]. apply (float_of_str_not_negative _ f E).
  - left. reflexivity.
Qed.

(** ** The sign of the age *)

(** X4: the age of a birthdate that parses is negative exactly when the
    birthdate lies after today; a birthdate in the future is neither
    refused nor turned into 0. *)
Theorem calculate_age_negative_iff_future (now : datetime) (s : string) (b : datetime) :
  strptime (VStr s) birthdate_format = Ok b ->
  exists age,
    calculate_age now (VStr s) = Ok (VInt age)
    /\ (age < 0 <-> date_before now b).
Proof.
  intros P. eexists. split; [apply (calculate_age_parsed now s b P) |].
  unfold date_before, month_day_lt.
  destruct (Z.ltb_spec (month now) (month b));
    destruct (Z.eqb_spec (month now) (month b));
    destruct (Z.ltb_spec (day now) (day b)); simpl; lia.
Qed.

Lemma calculate_age_negative_iff_future_witness :
  (exists age,
      calculate_age (mk_datetime 2024 6 15 12 0 0 0) (VStr "16/06/2024") = Ok (VInt age)
      /\ age < 0)
  /\ (exists age,
      calculate_age (mk_datetime 2024 6 15 12 0 0 0) (VStr "15/06/2024") = Ok (VInt age)
      /\ ~ age < 0).
Proof.
  split.
  - destruct (calculate_age_negative_iff_future (mk_datetime 2024 6 15 12 0 0 0)
                "16/06/2024" (mk_datetime 2024 6 16 0 0 0 0) eq_refl) as [age [E I]].
    exists age. split; [exact E |]. apply I. unfold date_before. simpl. lia.
  - destruct (calculate_age_negative_iff_future (mk_datetime 2024 6 15 12 0 0 0)
                "15/06/2024" (mk_datetime 2024 6 15 0 0 0 0) eq_refl) as [age [E I]].
    exists age. split; [exact E |]. intros N. apply I in N.
    unfold date_before in N. simpl in N. lia.
Defined.

(** ** The account ratings *)

Lemma sum_gen_from_ext {A : Type} (f g : A -> result pyval) (l : list A) (acc : pyval) :
  (forall a, In a l -> f a = g a) ->
  sum_gen_from f acc l = sum_gen_from g acc l.
Proof.
  revert acc. induction l as [| a l IH]; intros acc E; simpl; [reflexivity |].
  rewrite (E a) by (left; reflexivity).
  destruct (g a) as [x |]; simpl; [| reflexivity].
  destruct (add acc x) as [acc' |]; simpl; [| reflexivity].
  apply IH. intros b Hb. apply E. right. exact Hb.
Qed.

Lemma lookup_set_item_other (k k' : string) (v : pyval) (d : dict) :
  k <> k' -> lookup k (set_item k' v d) = lookup k d.
Proof.
  intros N. induction d as [| [k0 v0] d IH]; simpl.
  - destruct (String.eqb_spec k k'); [contradiction | reflexivity].
  - destruct (String.eqb_spec k' k0) as [E | E]; simpl.
    + subst k0. destruct (String.eqb_spec k k'); [contradiction | reflexivity].
    + destruct (k =? k0)%string; [reflexivity | exact IH].
Qed.

(** X5: the account ratings depend on the eighteen fields of the two
    lists only.  The list of good counters spells the auto loan field
    [noofautoloanccountsgood]; a value stored under
    [noofautoloanaccountsgood] is never read. *)
Theorem process_account_ratings_fields_read (d1 d2 : dict) :
  (forall k, In k rating_fields -> lookup k d1 = lookup k d2) ->
  process_account_ratings (VDict d1) = process_account_ratings (VDict d2)
  /\ forall v, process_account_ratings (VDict (set_item "noofautoloanaccountsgood" v d1))
               = process_account_ratings (VDict d2).
Proof.
  assert (G : forall a b : dict,
             (forall k, In k rating_fields -> lookup k a = lookup k b) ->
             process_account_ratings (VDict a) = process_account_ratings (VDict b)).
  { intros a b E. unfold process_account_ratings, sum_gen.
    assert (F : forall k, In k rating_fields ->
                          clean_field (VDict a) k = clean_field (VDict b) k).
    { intros k Hk. unfold clean_field, get. rewrite (E k Hk). reflexivity. }
    rewrite (sum_gen_from_ext (clean_field (VDict a)) (clean_field (VDict b)) bad_fields)
      by (intros k Hk; apply F, in_or_app; left; exact Hk).
    rewrite (sum_gen_from_ext (clean_field (VDict a)) (clean_field (VDict b)) good_fields)
      by (intros k Hk; apply F, in_or_app; right; exact Hk).
    reflexivity. }
  intros E. split; [apply G, E |].
  intros v. apply G. intros k Hk. rewrite <- (E k Hk).
  apply lookup_set_item_other.
  intros C. subst k. simpl in Hk.
  repeat (destruct Hk as [Hk | Hk]; [discriminate Hk |]). exact Hk.
Qed.

Lemma process_account_ratings_fields_read_witness :
  process_account_ratings
    (VDict [("noofautoloanaccountsgood", VInt 7); ("subscriberid", VStr "x")])
  = process_account_ratings (VDict []).
Proof.
  apply (process_account_ratings_fields_read
           [("noofautoloanaccountsgood", VInt 7); ("subscriberid", VStr "x")] []).
  intros k Hk. simpl in Hk.
  repeat (destruct Hk as [Hk | Hk]; [subst k; reflexivity |]). contradiction.
Defined.

Lemma sum_gen_from_ints (d : dict) (fields : list string) (acc : Z) :
  (forall k, In k fields -> lookup k d = None \/ exists z, lookup k d = Some (VInt z)) ->
  sum_gen_from (clean_field (VDict d)) (VInt acc) fields
  = Ok (VInt (acc + total (map (int_counter d) fields))).
Proof.
  revert acc. induction fields as [| k l IH]; intros acc H; simpl.
  - rewrite Z.add_0_r. reflexivity.
  - assert (C : clean_field (VDict d) k = Ok (VInt (int_counter d k))).
    { unfold clean_field, get, int_counter.
      destruct (H k (or_introl eq_refl)) as [N | [z S]]; [rewrite N | rewrite S];
        reflexivity. }
    rewrite C. cbn [bind add as_num]. rewrite IH.
    + f_equal. f_equal. unfold total. simpl. lia.
    + intros k' Hk'. apply H. right. exact Hk'.
Qed.

(** X6: when each of the eighteen counters is an int or absent, the two
    features are the exact integer sums of the nine bad and of the nine
    good counters, an absent counter counting 0. *)
Theorem process_account_ratings_int_sums (d : dict) :
  (forall k, In k rating_fields ->
             lookup k d = None \/ exists z, lookup k d = Some (VInt z)) ->
  process_account_ratings (VDict d)
  = Ok [ ("no_of_bad_accounts", VInt (total (map (int_counter d) bad_fields)));
         ("no_of_good_accounts", VInt (total (map (int_counter d) good_fields))) ].
Proof.
  intros H. unfold process_account_ratings, sum_gen.
  rewrite (sum_gen_from_ints d bad_fields 0)
    by (intros k Hk; apply H, in_or_app; left; exact Hk).
  cbn [bind].
  rewrite (sum_gen_from_ints d good_fields 0)
    by (intros k Hk; apply H, in_or_app; right; exact Hk).
  reflexivity.
Qed.

Lemma process_account_ratings_int_sums_witness :
  process_account_ratings
    (VDict [ ("noofotheraccountsbad", VInt 2); ("noofretailaccountsgood", VInt 5);
             ("noofhomeloanaccountsbad", VInt 1); ("nooftelecomaccountsgood", VInt 4) ])
  = Ok [("no_of_bad_accounts", VInt 3); ("no_of_good_accounts", VInt 9)].
Proof.
  apply (process_account_ratings_int_sums
           [ ("noofotheraccountsbad", VInt 2); ("noofretailaccountsgood", VInt 5);
             ("noofhomeloanaccountsbad", VInt 1); ("nooftelecomaccountsgood", VInt 4) ]).
  intros k Hk. simpl in Hk.
  repeat (destruct Hk as [Hk | Hk]; [subst k; simpl; eauto |]). contradiction.
Defined.

(** ** The personal details *)

Lemma calculate_age_str_result (now : datetime) (s : string) :
  calculate_age now (VStr s) = Ok VNone
  \/ exists n, calculate_age now (VStr s) = Ok (VInt n).
Proof.
  unfold calculate_age.
  destruct (truthy (VStr s)); cbn [negb bind method_strip]; [| left; reflexivity].
  destruct (str_in (strip s) [""; "-"]); [left; reflexivity |].
  destruct (strptime (VStr s) "%d/%m/%Y") as [b | e]; simpl; eauto.
Qed.

Lemma calculate_age_truthy_non_str (now : datetime) (v : pyval) :
  truthy v = true -> is_str v = false -> calculate_age now v = Raise AttributeError.
Proof.
  intros T S. unfold calculate_age. rewrite T.
  destruct v; try discriminate S; reflexivity.
Qed.

(** X7: on a mapping the personal details are returned exactly when the
    birthdate is absent, falsy or a string: the age is then None or an
    int, [property_owned] 0 or 1 and [employment_status] one of the two
    categories.  Any other birthdate (a non-zero number, a non-empty list
    or mapping) raises AttributeError, whatever the other fields hold. *)
Theorem process_personal_details_mapping (now : datetime) (d : dict) :
  let birthdate := field_or_none d "birthdate" in
  (negb (truthy birthdate) || is_str birthdate = true ->
   exists age,
     process_personal_details now (VDict d)
     = Ok [ ("age", age);
            ("property_owned",
             VInt (if truthy (field_or_none d "propertyownedtype") then 1 else 0));
            ("employment_status",
             VStr (if truthy (field_or_none d "employerdetail")
                   then "Employed" else "Unknown")) ]
     /\ (age = VNone \/ exists n, age = VInt n))
  /\ (negb (truthy birthdate) || is_str birthdate = false ->
      process_personal_details now (VDict d) = Raise AttributeError).
Proof.
  intros birthdate.
  assert (U : process_personal_details now (VDict d)
              = (age <- calculate_age now birthdate ;;
                 Ok [ ("age", age);
                      ("property_owned",
                       VInt (if truthy (field_or_none d "propertyownedtype")
                             then 1 else 0));
                      ("employment_status",
                       VStr (if truthy (field_or_none d "employerdetail")
                             then "Employed" else "Unknown")) ])).
  { unfold process_personal_details, get, birthdate, field_or_none.
    destruct (lookup "birthdate" d); destruct (lookup "propertyownedtype" d);
      destruct (lookup "employerdetail" d); reflexivity. }
  rewrite U. split.
  - intros H. apply orb_true_iff in H. destruct H as [F | S].
    + apply negb_true_iff in F. rewrite (calculate_age_falsy now birthdate F).
      exists VNone. split; [reflexivity | left; reflexivity].
    + destruct birthdate as [| | | | s | |]; try discriminate S.
      destruct (calculate_age_str_result now s) as [E | [n E]]; rewrite E;
        eexists; (split; [reflexivity | eauto]).
  - intros H. apply orb_false_iff in H. destruct H as [T S].
    apply negb_false_iff in T.
    rewrite (calculate_age_truthy_non_str now birthdate T S). reflexivity.
Qed.

Lemma process_personal_details_mapping_witness :
  let now := mk_datetime 2024 6 15 12 0 0 0 in
  (exists age,
      process_personal_details now
        (VDict [("birthdate", VStr "15/06/1990"); ("employerdetail", VStr "ACME")])
      = Ok [("age", age); ("property_owned", VInt 0); ("employment_status", VStr "Employed")]
      /\ (age = VNone \/ exists n, age = VInt n))
  /\ process_personal_details now (VDict [("birthdate", VInt 19900615)])
     = Raise AttributeError.
Proof.
  intros now. split.
  - apply (process_personal_details_mapping now
             [("birthdate", VStr "15/06/1990"); ("employerdetail", VStr "ACME")]).
    reflexivity.
  - apply (process_personal_details_mapping now [("birthdate", VInt 19900615)]).
    reflexivity.
Defined.

(** ** The enquiry history on other iterables *)

Lemma no_mapping_nothing_counted (now : datetime) (l : list pyval) :
  Forall (fun e => isinstance_dict e = false) l -> filter (counted now) l = [].
Proof.
  induction 1 as [| e l He Hl IH]; [reflexivity |].
  simpl. unfold counted at 1, timestamp.
  destruct e; try discriminate He; exact IH.
Qed.

(** X8: entries that are not mappings are all skipped, so a list without a
    mapping, a string (its characters are the entries) and a mapping (its
    keys are the entries) give the count 0 without raising; a truthy number
    is not iterable and raises TypeError. *)
Theorem process_enquiry_history_not_mappings (now : datetime) :
  (forall l, Forall (fun e => isinstance_dict e = false) l ->
             process_enquiry_history now (VList l) = Ok default_enquiry_history)
  /\ (forall s, process_enquiry_history now (VStr s) = Ok default_enquiry_history)
  /\ (forall d, process_enquiry_history now (VDict d) = Ok default_enquiry_history)
  /\ (forall v, truthy v = true -> isinstance_int_float v = true ->
                process_enquiry_history now v = Raise TypeError).
Proof.
  assert (G : forall v l,
             iter v = Ok l -> Forall (fun e => isinstance_dict e = false) l ->
             process_enquiry_history now v = Ok default_enquiry_history).
  { intros v l I F. unfold process_enquiry_history.
    destruct (truthy v); [| reflexivity]. cbn [negb]. rewrite I. cbn [bind].
    rewrite fold_enquiry_step, (no_mapping_nothing_counted now l F). reflexivity. }
  split; [| split; [| split]].
  - intros l F. apply (G (VList l) l); [reflexivity | exact F].
  - intros s. apply (G (VStr s) _ eq_refl).
    apply Forall_forall. intros e He. apply in_map_iff in He.
    destruct He as [c [E _]]. subst e. reflexivity.
  - intros d. apply (G (VDict d) _ eq_refl).
    apply Forall_forall. intros e He. apply in_map_iff in He.
    destruct He as [kv [E _]]. subst e. reflexivity.
  - intros v T N. unfold process_enquiry_history. rewrite T.
    destruct v; try discriminate N; reflexivity.
Qed.

Lemma process_enquiry_history_not_mappings_witness :
  let now := mk_datetime 2024 6 15 12 0 0 0 in
  process_enquiry_history now (VList [VStr "05/06/2024 12:00:00"; VNone; VInt 4])
  = Ok default_enquiry_history
  /\ process_enquiry_history now (VFloat (float_div_Z 3 2)) = Raise TypeError.
Proof.
  intros now.
  destruct (process_enquiry_history_not_mappings now) as [H1 [_ [_ H4]]].
  split.
  - apply (H1 [VStr "05/06/2024 12:00:00"; VNone; VInt 4]).
    repeat constructor.
  - apply (H4 (VFloat (float_div_Z 3 2))); reflexivity.
Defined.

(** ** The guarantor information *)

Lemma is_filled_spec (v : pyval) : is_filled v = true <-> ~ is_marker v.
Proof.
  unfold is_marker. destruct v; simpl;
    try (split; [intros _ [H | [H | [H | H]]]; discriminate H | reflexivity]).
  - split; [discriminate | intros H; exfalso; apply H; left; reflexivity].
  - rewrite !orb_false_r.
    destruct (String.eqb_spec s "") as [-> | N1];
      [split; [discriminate | intros H; exfalso; apply H; tauto] |].
    destruct (String.eqb_spec s "null") as [-> | N2];
      [split; [discriminate | intros H; exfalso; apply H; tauto] |].
    destruct (String.eqb_spec s "1900-01-01T00:00:00+01:00") as [-> | N3];
      [split; [discriminate | intros H; exfalso; apply H; tauto] |].
    split; [| reflexivity].
    intros _ [H | [H | [H | H]]]; try discriminate H; injection H as H; contradiction.
Qed.

(** X9: for two mappings the guarantor information is always returned;
    [guarantor_count] is a number and [has_guarantor] is 1 exactly when
    some field other than [guarantordateofbirth] holds a value other than
    None, the empty string, "null" and the 1900 timestamp, else 0. *)
Theorem process_guarantor_info_mappings (details count : dict) :
  exists n h,
    process_guarantor_info (VDict details) (VDict count)
    = Ok [("guarantor_count", n); ("has_guarantor", VInt h)]
    /\ isinstance_int_float n = true
    /\ (h = 1 \/ h = 0)
    /\ (h = 1 <->
        exists k v, In (k, v) details /\ k <> "guarantordateofbirth" /\ ~ is_marker v).
Proof.
  unfold process_guarantor_info.
  assert (C : exists n, clean_field (VDict count) "accounts" = Ok n
                        /\ isinstance_int_float n = true).
  { unfold clean_field, get. destruct (lookup "accounts" count) as [v |]; cbn [bind].
    - destruct (clean_numeric_total v) as [n Hn]. exists n. split; [exact Hn |].
      apply (clean_numeric_returns_number v n Hn).
    - exists (VInt 0). split; reflexivity. }
  destruct C as [n [Cn Nn]]. rewrite Cn. cbn [bind].
  set (p := fun kv : string * pyval =>
              negb (fst kv =? "guarantordateofbirth")%string && is_filled (snd kv)).
  assert (P : existsb p details = true <->
              exists k v, In (k, v) details /\ k <> "guarantordateofbirth" /\ ~ is_marker v).
  { rewrite existsb_exists. split.
    - intros [[k v] [I H]]. unfold p in H. simpl in H.
      apply andb_true_iff in H. destruct H as [K F].
      exists k, v. split; [exact I |]. split.
      + apply negb_true_iff, String.eqb_neq in K. exact K.
      + apply is_filled_spec, F.
    - intros [k [v [I [K F]]]]. exists (k, v). split; [exact I |].
      unfold p. simpl. apply andb_true_iff. split.
      + apply negb_true_iff, String.eqb_neq, K.
      + apply is_filled_spec, F. }
  destruct details as [| kv details'].
  - exists n, 0. cbn [truthy]. split; [reflexivity |]. split; [exact Nn |].
    split; [right; reflexivity |]. split; [discriminate |].
    intros H. apply P in H. discriminate H.
  - cbn [truthy method_items bind]. fold p.
    destruct (existsb p (kv :: details')) eqn:E.
    + exists n, 1. split; [reflexivity |]. split; [exact Nn |].
      split; [left; reflexivity |]. split; [intros _; apply P; reflexivity | reflexivity].
    + exists n, 0. split; [reflexivity |]. split; [exact Nn |].
      split; [right; reflexivity |]. split; [discriminate |].
      intros H. apply P in H. discriminate H.
Qed.

(** ** The layout of a record *)

Lemma mem_In (k : string) (l : list string) : mem k l = true <-> In k l.
Proof.
  unfold mem. rewrite existsb_exists. split.
  - intros [x [I E]]. apply String.eqb_eq in E. subst x. exact I.
  - intros I. exists k. split; [exact I | apply String.eqb_refl].
Qed.

Lemma set_item_fresh (k : string) (v : pyval) (d : dict) :
  mem k (keys d) = false -> set_item k v d = (d ++ [(k, v)])%list.
Proof.
  induction d as [| [k0 v0] d IH]; simpl; [reflexivity |].
  intros H. apply orb_false_iff in H. destruct H as [N M].
  rewrite N, (IH M). reflexivity.
Qed.

Lemma keys_app (a b : dict) : keys (a ++ b)%list = (keys a ++ keys b)%list.
Proof. apply map_app. Qed.

Lemma mem_app (k : string) (a b : list string) :
  mem k (a ++ b)%list = mem k a || mem k b.
Proof. apply existsb_app. Qed.

(** Updating with a mapping whose keys are distinct and all new appends
    its items. *)
Lemma update_fresh (part d : dict) :
  distinct (keys part) = true -> apart (keys part) (keys d) = true ->
  update d part = (d ++ part)%list.
Proof.
  unfold update. revert d.
  induction part as [| [k v] part IH]; intros d D A; simpl.
  - rewrite app_nil_r. reflexivity.
  - simpl in D, A. apply andb_true_iff in D. destruct D as [Dk D].
    apply andb_true_iff in A. destruct A as [Ak A].
    apply negb_true_iff in Dk, Ak.
    rewrite (set_item_fresh k v d Ak), IH.
    + rewrite <- app_assoc. reflexivity.
    + exact D.
    + unfold apart in *. rewrite forallb_forall in *. intros x Hx.
      rewrite keys_app, mem_app, (proj1 (negb_true_iff _) (A x Hx)). simpl.
      rewrite orb_false_r. apply negb_true_iff.
      destruct (String.eqb_spec x k) as [-> | _]; [| reflexivity].
      apply mem_In in Hx. rewrite Hx in Dk. discriminate Dk.
Qed.

Lemma update_step (d part : dict) (kd kp : list string) :
  keys d = kd -> keys part = kp -> distinct kp = true -> apart kp kd = true ->
  update d part = (d ++ part)%list /\ keys (update d part) = (kd ++ kp)%list.
Proof.
  intros Kd Kp D A. subst kd kp.
  rewrite (update_fresh part d D A), keys_app. split; reflexivity.
Qed.

(** The record of a mapping that has [data], when the assembler returns
    one: the identifier, then the seven feature mappings one after the
    other. *)
Lemma extract_features_with_data (now : datetime) (d : dict) (f : dict) :
  has_key "data" d = true -> extract_features now (VDict d) = Ok f ->
  exists s1 s2 s3 s4 s5 s6 s7 c7 p1 p2 p3 p4 p5 p6 p7,
    process_account_ratings s1 = Ok p1
    /\ process_credit_summary s2 = Ok p2
    /\ process_enquiry_history now s3 = Ok p3
    /\ process_credit_agreements s4 = Ok p4
    /\ process_delinquency s5 = Ok p5
    /\ process_personal_details now s6 = Ok p6
    /\ process_guarantor_info s7 c7 = Ok p7
    /\ f = (("application_id", field_or_none d "application_id")
            :: p1 ++ p2 ++ p3 ++ p4 ++ p5 ++ p6 ++ p7)%list
    /\ keys f = record_keys.
Proof.
  intros D H. unfold extract_features in H. cbn [get] in H.
  assert (A : (match lookup "application_id" d with
               | Some v => Ok v
               | None => Ok VNone
               end) = Ok (field_or_none d "application_id")).
  { unfold field_or_none. destruct (lookup "application_id" d); reflexivity. }
  rewrite A in H. cbn [bind] in H.
  assert (T : truthy (VDict d) = true).
  { destruct d; [discriminate D | reflexivity]. }
  rewrite T in H. cbn [negb contains_key bind] in H. rewrite D in H.
  cbn [negb bind] in H.
  apply bind_ok_inv in H. destruct H as [data [_ H]].
  apply bind_ok_inv in H. destruct H as [cd [_ H]].
  apply bind_ok_inv in H. destruct H as [s1 [_ H]].
  apply bind_ok_inv in H. destruct H as [p1 [K1 H]].
  apply bind_ok_inv in H. destruct H as [s2 [_ H]].
  apply bind_ok_inv in H. destruct H as [p2 [K2 H]].
  apply bind_ok_inv in H. destruct H as [s3 [_ H]].
  apply bind_ok_inv in H. destruct H as [p3 [K3 H]].
  apply bind_ok_inv in H. destruct H as [s4 [_ H]].
  apply bind_ok_inv in H. destruct H as [p4 [K4 H]].
  apply bind_ok_inv in H. destruct H as [s5 [_ H]].
  apply bind_ok_inv in H. destruct H as [p5 [K5 H]].
  apply bind_ok_inv in H. destruct H as [s6 [_ H]].
  apply bind_ok_inv in H. destruct H as [p6 [K6 H]].
  apply bind_ok_inv in H. destruct H as [s7 [_ H]].
  apply bind_ok_inv in H. destruct H as [c7 [_ H]].
  apply bind_ok_inv in H. destruct H as [p7 [K7 H]].
  injection H as H. subst f.
  exists s1, s2, s3, s4, s5, s6, s7, c7, p1, p2, p3, p4, p5, p6, p7.
  repeat (split; [assumption |]).
  apply process_account_ratings_keys in K1.
  apply process_credit_summary_keys in K2.
  apply process_enquiry_history_keys in K3.
  apply process_credit_agreements_keys in K4.
  apply process_delinquency_keys in K5.
  apply process_personal_details_keys in K6.
  apply process_guarantor_info_keys in K7.
  set (f0 := [("application_id", field_or_none d "application_id")]).
  destruct (update_step f0 p1 _ _ eq_refl K1 eq_refl eq_refl) as [E1 Q1].
  destruct (update_step _ p2 _ _ Q1 K2 eq_refl eq_refl) as [E2 Q2].
  destruct (update_step _ p3 _ _ Q2 K3 eq_refl eq_refl) as [E3 Q3].
  destruct (update_step _ p4 _ _ Q3 K4 eq_refl eq_refl) as [E4 Q4].
  destruct (update_step _ p5 _ _ Q4 K5 eq_refl eq_refl) as [E5 Q5].
  destruct (update_step _ p6 _ _ Q5 K6 eq_refl eq_refl) as [E6 Q6].
  destruct (update_step _ p7 _ _ Q6 K7 eq_refl eq_refl) as [E7 Q7].
  split; [| exact Q7].
  rewrite E7, E6, E5, E4, E3, E2, E1. unfold f0.
  rewrite <- !app_assoc. reflexivity.
Qed.

Lemma extract_features_keys (now : datetime) (d : dict) (f : dict) :
  extract_features now (VDict d) = Ok f ->
  lookup "application_id" f = Some (field_or_none d "application_id")
  /\ keys f = (if has_key "data" d then record_keys else ["application_id"]).
Proof.
  intros H. destruct (has_key "data" d) eqn:D.
  - destruct (extract_features_with_data now d f D H)
      as (s1 & s2 & s3 & s4 & s5 & s6 & s7 & c7 & p1 & p2 & p3 & p4 & p5 & p6 & p7
          & _ & _ & _ & _ & _ & _ & _ & E & K).
    split; [rewrite E; reflexivity | exact K].
  - rewrite (extract_features_no_data now d D) in H. injection H as H. subst f.
    split; reflexivity.
Qed.

(** X10: a record the assembler returns for a mapping has one of two
    shapes: the identifier alone when the mapping has no [data], or the
    identifier followed by the eighteen features, each key once and in one
    fixed order, whatever sub-sections were present. *)
Theorem extract_features_layout (now : datetime) (d : dict) (f : dict) :
  extract_features now (VDict d) = Ok f ->
  lookup "application_id" f = Some (field_or_none d "application_id")
  /\ keys f = (if has_key "data" d then record_keys else ["application_id"])
  /\ distinct (keys f) = true.
Proof.
  intros H. destruct (extract_features_keys now d f H) as [A K].
  split; [exact A |]. split; [exact K |].
  rewrite K. destruct (has_key "data" d); reflexivity.
Qed.

Lemma extract_features_layout_witness :
  let now := mk_datetime 2024 6 15 12 0 0 0 in
  let report : dict :=
    [ ("application_id", VInt 17);
      ("data", VDict [("consumerfullcredit",
                       VDict [("guarantorcount", VDict [("accounts", VStr "2")])])]) ] in
  keys (features_of now (VDict report)) = record_keys
  /\ lookup "application_id" (features_of now (VDict report)) = Some (VInt 17).
Proof.
  intros now report.
  destruct (extract_features_layout now report (features_of now (VDict report)) eq_refl)
    as [A [K _]].
  split; [exact K | exact A].
Defined.

(** ** The batch builder: what is dropped, what aborts, which columns *)

(** X11: the entries the filter drops have no effect at all: the batch
    builder gives the same table, or raises the same exception, on a batch
    and on the batch without them. *)
Theorem process_reports_ignores_dropped (now : datetime) (reports : list pyval) :
  process_reports now (VList reports)
  = process_reports now (VList (filter survives reports)).
Proof.
  unfold process_reports. cbn [iter bind].
  rewrite (collect_features_survivors now reports). reflexivity.
Qed.

Lemma collect_features_raises
  (now : datetime) (pre post : list pyval) (r : pyval) (e : exn) (acc : list dict) :
  assembles now pre -> survives r = true -> extract_features now r = Raise e ->
  collect_features now acc (pre ++ r :: post) = Raise e.
Proof.
  unfold assembles. revert acc.
  induction pre as [| x pre IH]; intros acc A S E; simpl.
  - rewrite S, E. reflexivity.
  - simpl in A. destruct (survives x); simpl.
    + inversion A as [| x' l' [f Hf] A']; subst. rewrite Hf. simpl.
      apply IH; assumption.
    + apply IH; assumption.
Qed.

(** X12: one surviving report on which the assembler raises aborts the
    whole batch: the exception of the first such report leaves
    [process_reports], and the records built before it are lost. *)
Theorem process_reports_aborts
  (now : datetime) (pre post : list pyval) (r : pyval) (e : exn) :
  assembles now pre -> survives r = true -> extract_features now r = Raise e ->
  process_reports now (VList (pre ++ r :: post)) = Raise e.
Proof.
  intros A S E. unfold process_reports. cbn [iter bind].
  rewrite (collect_features_raises now pre post r e [] A S E). reflexivity.
Qed.

Lemma process_reports_aborts_witness :
  let now := mk_datetime 2024 6 15 12 0 0 0 in
  process_reports now
    (VList [ VDict [("application_id", VStr "A1"); ("data", VDict [])];
             VDict [("application_id", VStr "A2");
                    ("data", VDict [("consumerfullcredit",
                                     VDict [("accountrating", VNone)])])];
             VDict [("application_id", VStr "A3")] ])
  = Raise AttributeError.
Proof.
  intros now.
  apply (process_reports_aborts now
           [VDict [("application_id", VStr "A1"); ("data", VDict [])]]
           [VDict [("application_id", VStr "A3")]]).
  - unfold assembles. simpl. repeat constructor. eexists. reflexivity.
  - reflexivity.
  - reflexivity.
Defined.







(** ** The credit agreements *)

Lemma count_cons (p : pyval -> bool) (a : pyval) (l : list pyval) :
  count p (a :: l) = (if p a then 1 else 0) + count p l.
Proof.
  unfold count. simpl. destruct (p a); simpl List.length; lia.
Qed.

(** One turn of the loop that returns was on a mapping and moved the three
    counters by what the account is. *)
Lemma agreement_step_counts (st st' : agreements_state) (account : pyval) :
  agreement_step st account = Ok st' ->
  isinstance_dict account = true
  /\ personal_loans st' = personal_loans st + (if is_personal account then 1 else 0)
  /\ overdrafts st' = overdrafts st + (if is_overdraft account then 1 else 0)
  /\ written_off st' = written_off st + (if is_written_off account then 1 else 0).
Proof.
  intros H. destruct account; try discriminate H.
  split; [reflexivity |].
  unfold agreement_step in H.
  apply bind_ok_inv in H. destruct H as [dv [G1 H]].
  apply bind_ok_inv in H. destruct H as [text [G0 H]].
  apply bind_ok_inv in H. destruct H as [sv [G2 H]].
  apply bind_ok_inv in H. destruct H as [ov [_ H]].
  apply bind_ok_inv in H. destruct H as [hi [_ H]].
  apply bind_ok_inv in H. destruct H as [du [_ H]].
  apply bind_ok_inv in H. destruct H as [po [_ H]].
  assert (D : lower text = description (VDict d)).
  { unfold description, described. simpl in G1.
    destruct (lookup "indicatordescription" d); injection G1 as G1; subst dv;
      rewrite G0; reflexivity. }
  assert (W : eq_str sv "WrittenOff" = is_written_off (VDict d)).
  { unfold is_written_off, field_or_none. simpl in G2.
    destruct (lookup "accountstatus" d); injection G2 as G2; subst sv; reflexivity. }
  rewrite D, W in H. unfold is_personal, is_overdraft.
  set (bp := contains "personal" (description (VDict d))) in *.
  set (bo := contains "overdraft" (description (VDict d))) in *.
  set (bw := is_written_off (VDict d)) in *.
  destruct po.
  - apply bind_ok_inv in H. destruct H as [t [_ H]]. injection H as H. subst st'.
    cbn [personal_loans overdrafts written_off].
    destruct bp, bo, bw; repeat split; lia.
  - injection H as H. subst st'. cbn [personal_loans overdrafts written_off].
    destruct bp, bo, bw; repeat split; lia.
Qed.

Lemma agreement_loop_counts (accounts : list pyval) (st st' : agreements_state) :
  agreement_loop st accounts = Ok st' ->
  Forall (fun a => isinstance_dict a = true) accounts
  /\ personal_loans st' = personal_loans st + count is_personal accounts
  /\ overdrafts st' = overdrafts st + count is_overdraft accounts
  /\ written_off st' = written_off st + count is_written_off accounts.
Proof.
  revert st. induction accounts as [| a l IH]; intros st H; simpl in H.
  - injection H as H. subst st'. unfold count. simpl.
    repeat split; try lia. constructor.
  - apply bind_ok_inv in H. destruct H as [st1 [S H]].
    destruct (agreement_step_counts st st1 a S) as [Da [P1 [O1 W1]]].
    destruct (IH st1 H) as [Dl [P2 [O2 W2]]].
    rewrite !count_cons. repeat split; try lia. constructor; assumption.
Qed.

(** X14: when the credit agreements are returned for a list, every entry
    was a mapping, [personal_loan_count] and [overdraft_count] are the
    numbers of entries whose description, as a lower-case string, contains
    "personal" and "overdraft" (an entry with both counts twice), and
    [written_off_accounts] the number whose status is the string
    "WrittenOff". *)
Theorem process_credit_agreements_counts (accounts : list pyval) (f : dict) :
  process_credit_agreements (VList accounts) = Ok f ->
  Forall (fun a => isinstance_dict a = true) accounts
  /\ lookup "personal_loan_count" f = Some (VInt (count is_personal accounts))
  /\ lookup "overdraft_count" f = Some (VInt (count is_overdraft accounts))
  /\ lookup "written_off_accounts" f = Some (VInt (count is_written_off accounts)).
Proof.
  unfold process_credit_agreements. intros H.
  destruct accounts as [| a l].
  - injection H as H. subst f. split; [constructor | repeat split].
  - cbn [truthy negb iter bind] in H.
    apply bind_ok_inv in H. destruct H as [st [L H]].
    destruct (agreement_loop_counts (a :: l) _ st L) as [D [P [O W]]].
    cbn [personal_loans overdrafts written_off] in P, O, W.
    rewrite Z.add_0_l in P, O, W.
    split; [exact D |].
    destruct (0 <? valid_durations st).
    + apply bind_ok_inv in H. destruct H as [avg [_ H]]. injection H as H. subst f.
      rewrite P, O, W. repeat split.
    + injection H as H. subst f. rewrite P, O, W. repeat split.
Qed.

Lemma process_credit_agreements_counts_witness :
  let accounts :=
    [ VDict [("indicatordescription", VStr "Personal Loan"); ("amountoverdue", VStr "1,000");
             ("loanduration", VStr "30")];
      VDict [("indicatordescription", VStr "Overdraft Facility");
             ("accountstatus", VStr "WrittenOff"); ("amountoverdue", VStr "500");
             ("loanduration", VStr "0")] ] in
  let f := match process_credit_agreements (VList accounts) with
           | Ok f => f
           | Raise _ => []
           end in
  lookup "personal_loan_count" f = Some (VInt 1)
  /\ lookup "overdraft_count" f = Some (VInt 1)
  /\ lookup "written_off_accounts" f = Some (VInt 1).
Proof.
  intros accounts f.
  destruct (process_credit_agreements_counts accounts f eq_refl) as [_ [P [O W]]].
  split; [exact P | split; [exact O | exact W]].
Defined.

Lemma float_of_Z_cases (z : Z) :
  (exists f, float_of_Z z = Ok f) \/ float_of_Z z = Raise OverflowError.
Proof.
  unfold float_of_Z, finite_or_overflow.
  destruct (binary_normalize prec emax z 0 false); eauto.
Qed.

Lemma add_numbers (a b : pyval) :
  isinstance_int_float a = true -> isinstance_int_float b = true ->
  number_or_overflow (add a b).
Proof.
  unfold isinstance_int_float, add, number_or_overflow. intros A B.
  destruct (as_num a) as [[x | x] |]; [| | discriminate A];
    (destruct (as_num b) as [[y | y] |]; [| | discriminate B]);
    try (left; eexists; split; reflexivity).
  - destruct (float_of_Z_cases x) as [[f E] | E]; rewrite E; [left | right; reflexivity].
    eexists; split; reflexivity.
  - destruct (float_of_Z_cases y) as [[f E] | E]; rewrite E; [left | right; reflexivity].
    eexists; split; reflexivity.
Qed.

Lemma gt_numbers (a b : pyval) :
  isinstance_int_float a = true -> isinstance_int_float b = true ->
  exists r, gt a b = Ok r.
Proof.
  unfold isinstance_int_float, gt. intros A B.
  destruct (as_num a) as [[x | x] |]; [| | discriminate A];
    (destruct (as_num b) as [[y | y] |]; [| | discriminate B]); eauto.
Qed.

(** Dividing a number by a non-zero int never raises ZeroDivisionError. *)
Lemma truediv_by_count (a : pyval) (n : Z) :
  isinstance_int_float a = true -> n <> 0 ->
  number_or_overflow (truediv a (VInt n)).
Proof.
  unfold isinstance_int_float, truediv, number_or_overflow. intros A N.
  apply Z.eqb_neq in N.
  destruct (as_num a) as [[x | x] |]; [| | discriminate A]; cbn [as_num]; rewrite ?N.
  - unfold finite_or_overflow. destruct (float_div_Z x n); cbn [bind];
      try (left; eexists; split; reflexivity). right. reflexivity.
  - destruct (float_of_Z_cases n) as [[f E] | E]; rewrite E; cbn [bind];
      [left | right; reflexivity].
    eexists; split; reflexivity.
Qed.

Lemma clean_field_mapping (d : dict) (k : string) :
  exists r, clean_field (VDict d) k = Ok r /\ isinstance_int_float r = true.
Proof.
  unfold clean_field, get.
  destruct (lookup k d) as [v |]; cbn [bind].
  - destruct (clean_numeric_total v) as [r E]. exists r. split; [exact E |].
    apply (clean_numeric_returns_number v r E).
  - exists (VInt 0). split; reflexivity.
Qed.

Lemma agreement_step_mapping (st : agreements_state) (d : dict) (text : string) :
  numeric_state st -> str (described d) = Ok text ->
  (exists st', agreement_step st (VDict d) = Ok st' /\ numeric_state st')
  \/ agreement_step st (VDict d) = Raise OverflowError.
Proof.
  intros [T M] X. unfold agreement_step.
  assert (G : forall k dflt, exists v, get (VDict d) k dflt = Ok v).
  { intros k dflt. simpl. destruct (lookup k d); eauto. }
  assert (E1 : get (VDict d) "indicatordescription" (VStr "") = Ok (described d)).
  { unfold described. simpl. destruct (lookup "indicatordescription" d); reflexivity. }
  rewrite E1. cbn [bind]. rewrite X. cbn [bind].
  destruct (G "accountstatus" VNone) as [sv E2]. rewrite E2. cbn [bind].
  destruct (clean_field_mapping d "amountoverdue") as [ov [E3 N3]]. rewrite E3. cbn [bind].
  destruct (gt_numbers ov (max_overdue st) N3 M) as [hi E4]. rewrite E4. cbn [bind].
  destruct (clean_field_mapping d "loanduration") as [du [E5 N5]]. rewrite E5. cbn [bind].
  destruct (gt_numbers du (VInt 0) N5 eq_refl) as [po E6]. rewrite E6. cbn [bind].
  assert (M' : isinstance_int_float (if hi then ov else max_overdue st) = true)
    by (destruct hi; assumption).
  destruct po.
  - destruct (add_numbers (total_duration st) du T N5) as [[t [E7 N7]] | E7];
      rewrite E7; cbn [bind]; [left | right; reflexivity].
    eexists. split; [reflexivity |]. split; assumption.
  - left. eexists. split; [reflexivity |]. split; assumption.
Qed.

(** A turn of the loop that returns has converted the description. *)
Lemma agreement_step_described (st st' : agreements_state) (d : dict) :
  agreement_step st (VDict d) = Ok st' -> exists text, str (described d) = Ok text.
Proof.
  unfold agreement_step. intros H.
  apply bind_ok_inv in H. destruct H as [dv [G H]].
  apply bind_ok_inv in H. destruct H as [text [X _]].
  exists text. unfold described. simpl in G.
  destruct (lookup "indicatordescription" d); injection G as G; subst dv; exact X.
Qed.

Lemma str_description_converts (d : dict) :
  str_description (VDict d) = true -> exists text, str (described d) = Ok text.
Proof.
  unfold str_description, described.
  destruct (lookup "indicatordescription" d) as [[| | | | s | |] |];
    try discriminate; intros _; eexists; reflexivity.
Qed.

Lemma agreement_loop_mappings (accounts : list pyval) (st : agreements_state) :
  Forall (fun a => str_description a = true) accounts -> numeric_state st ->
  (exists st', agreement_loop st accounts = Ok st' /\ numeric_state st')
  \/ agreement_loop st accounts = Raise OverflowError.
Proof.
  intros F. revert st. induction F as [| a l Da Dl IH]; intros st N; simpl.
  - left. eauto.
  - destruct a; try discriminate Da.
    destruct (str_description_converts d Da) as [text X].
    destruct (agreement_step_mapping st d text N X) as [[st1 [E N1]] | E];
      rewrite E; cbn [bind].
    + apply IH, N1.
    + right. reflexivity.
Qed.

(** X15: on a list of mappings whose [indicatordescription] is absent or a
    string, the credit agreements never fail on a key, a type or a division
    by zero, whatever else the mappings hold: the average is only taken over
    a positive count.  They are returned, unless an int too large for a
    float meets a float (OverflowError). *)
Theorem process_credit_agreements_mappings (accounts : list pyval) :
  Forall (fun a => str_description a = true) accounts ->
  (exists f, process_credit_agreements (VList accounts) = Ok f)
  \/ process_credit_agreements (VList accounts) = Raise OverflowError.
Proof.
  unfold process_credit_agreements.
  destruct accounts as [| a l]; intros F; [left; eexists; reflexivity |].
  cbn [truthy negb iter bind].
  destruct (agreement_loop_mappings (a :: l) (mk_agreements_state (VInt 0) 0 (VInt 0) 0 0 0) F)
    as [[st [E [T M]]] | E]; [split; reflexivity | | rewrite E; right; reflexivity].
  rewrite E. cbn [bind].
  destruct (Z.ltb_spec 0 (valid_durations st)) as [P | P]; [| left; eexists; reflexivity].
  destruct (truediv_by_count (total_duration st) (valid_durations st) T ltac:(lia))
    as [[avg [Ea _]] | Ea]; rewrite Ea; cbn [bind];
    [left; eexists; reflexivity | right; reflexivity].
Qed.

Lemma process_credit_agreements_mappings_witness :
  exists f,
    process_credit_agreements
      (VList [ VDict [("loanduration", VList []); ("amountoverdue", VNone)];
               VDict [("indicatordescription", VStr "Personal Loan")] ])
    = Ok f.
Proof.
  destruct (process_credit_agreements_mappings
              [ VDict [("loanduration", VList []); ("amountoverdue", VNone)];
                VDict [("indicatordescription", VStr "Personal Loan")] ])
    as [E | E].
  - repeat constructor.
  - exact E.
  - vm_compute in E. discriminate E.
Defined.

(** ** The types of the feature values *)

Lemma number_of_ok (m : result pyval) (r : pyval) :
  number_or_overflow m -> m = Ok r -> isinstance_int_float r = true.
Proof.
  intros [[x [E N]] | E] H; rewrite E in H; [injection H as H; subst; exact N |].
  discriminate H.
Qed.

Lemma clean_field_number (section : pyval) (k : string) (r : pyval) :
  clean_field section k = Ok r -> isinstance_int_float r = true.
Proof.
  unfold clean_field. intros H. apply bind_ok_inv in H. destruct H as [v [_ H]].
  apply (clean_numeric_returns_number v r H).
Qed.

Lemma sum_gen_from_number (section : pyval) (l : list string) (acc r : pyval) :
  isinstance_int_float acc = true ->
  sum_gen_from (clean_field section) acc l = Ok r -> isinstance_int_float r = true.
Proof.
  revert acc. induction l as [| k l IH]; intros acc A H; simpl in H.
  - injection H as H. subst r. exact A.
  - apply bind_ok_inv in H. destruct H as [x [X H]].
    apply bind_ok_inv in H. destruct H as [acc' [S H]].
    apply (IH acc'); [| exact H].
    apply (number_of_ok (add acc x)); [| exact S].
    apply add_numbers; [exact A | apply (clean_field_number section k x X)].
Qed.

Lemma process_account_ratings_numeric (v : pyval) (part : dict) :
  process_account_ratings v = Ok part -> numeric_values part.
Proof.
  unfold process_account_ratings, sum_gen. intros H.
  apply bind_ok_inv in H. destruct H as [bad [B H]].
  apply bind_ok_inv in H. destruct H as [good [G H]].
  injection H as H. subst part.
  repeat constructor; simpl;
    [apply (sum_gen_from_number v bad_fields (VInt 0) bad eq_refl B)
    | apply (sum_gen_from_number v good_fields (VInt 0) good eq_refl G)].
Qed.

Lemma process_credit_summary_numeric (v : pyval) (part : dict) :
  process_credit_summary v = Ok part -> numeric_values part.
Proof.
  unfold process_credit_summary. intros H.
  apply bind_ok_inv in H. destruct H as [a1 [C1 H]].
  apply bind_ok_inv in H. destruct H as [a2 [C2 H]].
  apply bind_ok_inv in H. destruct H as [a3 [C3 H]].
  apply bind_ok_inv in H. destruct H as [a4 [C4 H]].
  injection H as H. subst part.
  repeat constructor; simpl; eapply clean_field_number; eassumption.
Qed.

Lemma process_enquiry_history_numeric (now : datetime) (v : pyval) (part : dict) :
  process_enquiry_history now v = Ok part -> numeric_values part.
Proof.
  unfold process_enquiry_history. intros H.
  destruct (negb (truthy v)); [injection H as H; subst part; repeat constructor |].
  apply bind_ok_inv in H. destruct H as [l [_ H]]. injection H as H. subst part.
  repeat constructor.
Qed.

Lemma agreement_loop_numeric (accounts : list pyval) (st st' : agreements_state) :
  numeric_state st -> agreement_loop st accounts = Ok st' -> numeric_state st'.
Proof.
  revert st. induction accounts as [| a l IH]; intros st N H; simpl in H.
  - injection H as H. subst st'. exact N.
  - apply bind_ok_inv in H. destruct H as [st1 [S H]].
    apply (IH st1); [| exact H].
    destruct (agreement_step_counts st st1 a S) as [D _].
    destruct a; try discriminate D.
    destruct (agreement_step_described st st1 d S) as [text X].
    destruct (agreement_step_mapping st d text N X) as [[st2 [E N2]] | E];
      rewrite E in S.
    + injection S as S. subst st2. exact N2.
    + discriminate S.
Qed.

Lemma process_credit_agreements_numeric (v : pyval) (part : dict) :
  process_credit_agreements v = Ok part -> numeric_values part.
Proof.
  unfold process_credit_agreements. intros H.
  destruct (negb (truthy v)); [injection H as H; subst part; repeat constructor |].
  apply bind_ok_inv in H. destruct H as [l [_ H]].
  apply bind_ok_inv in H. destruct H as [st [L H]].
  destruct (agreement_loop_numeric l (mk_agreements_state (VInt 0) 0 (VInt 0) 0 0 0) st
              ltac:(split; reflexivity) L) as [T M].
  destruct (0 <? valid_durations st) eqn:P.
  - apply Z.ltb_lt in P. apply bind_ok_inv in H. destruct H as [avg [A H]]. injection H as H. subst part.
    assert (N : isinstance_int_float avg = true).
    { apply (number_of_ok (truediv (total_duration st) (VInt (valid_durations st))));
        [apply truediv_by_count; [exact T | lia] | exact A]. }
    repeat constructor; simpl; assumption.
  - injection H as H. subst part. repeat constructor; simpl; assumption.
Qed.

Lemma process_delinquency_numeric (v : pyval) (part : dict) :
  process_delinquency v = Ok part -> numeric_values part.
Proof.
  unfold process_delinquency. intros H.
  destruct (negb (truthy v)); [injection H as H; subst part; repeat constructor |].
  apply bind_ok_inv in H. destruct H as [m [C H]]. injection H as H. subst part.
  repeat constructor. simpl. apply (clean_field_number v _ m C).
Qed.

Lemma process_guarantor_info_numeric (v c : pyval) (part : dict) :
  process_guarantor_info v c = Ok part -> numeric_values part.
Proof.
  unfold process_guarantor_info. intros H.
  apply bind_ok_inv in H. destruct H as [n [C H]].
  pose proof (clean_field_number c _ n C) as N.
  destruct (truthy v); [| injection H as H; subst part; repeat constructor; exact N].
  apply bind_ok_inv in H. destruct H as [items [_ H]].
  destruct (existsb _ items); injection H as H; subst part;
    repeat constructor; exact N.
Qed.

Lemma calculate_age_result (now : datetime) (v r : pyval) :
  calculate_age now v = Ok r -> r = VNone \/ exists n, r = VInt n.
Proof.
  intros H. destruct (truthy v) eqn:T.
  - destruct (is_str v) eqn:S.
    + destruct v; try discriminate S.
      destruct (calculate_age_str_result now s) as [E | [n E]]; rewrite E in H;
        injection H as H; subst r; eauto.
    + rewrite (calculate_age_truthy_non_str now v T S) in H. discriminate H.
  - rewrite (calculate_age_falsy now v T) in H. injection H as H. subst r. eauto.
Qed.

Lemma process_personal_details_values (now : datetime) (v : pyval) (part : dict) :
  process_personal_details now v = Ok part ->
  Forall (fun kv : string * pyval => personal_value (fst kv) (snd kv)) part.
Proof.
  unfold process_personal_details. intros H.
  apply bind_ok_inv in H. destruct H as [b [_ H]].
  apply bind_ok_inv in H. destruct H as [age [A H]].
  apply bind_ok_inv in H. destruct H as [o [_ H]].
  apply bind_ok_inv in H. destruct H as [e [_ H]].
  injection H as H. subst part. unfold personal_value.
  constructor; [| constructor; [| constructor; [| constructor]]]; simpl.
  - left. split; [reflexivity | apply (calculate_age_result now b age A)].
  - right. left. split; [reflexivity | destruct (truthy o); eauto].
  - right. right. split; [reflexivity | destruct (truthy e); eauto].
Qed.

(** X16: in a record the assembler returns for a mapping, every feature of
    the account ratings, credit summary, enquiry history, credit
    agreements, delinquency and guarantor information is a Python number
    (int, bool or float), never None or a string; [age] is None or an int,
    [property_owned] is 0 or 1 and [employment_status] is "Employed" or
    "Unknown". *)
Theorem extract_features_value_types (now : datetime) (d : dict) (f : dict) :
  extract_features now (VDict d) = Ok f ->
  forall k v, In (k, v) f ->
    k = "application_id"
    \/ personal_value k v
    \/ (isinstance_int_float v = true
        /\ k <> "age" /\ k <> "property_owned" /\ k <> "employment_status").
Proof.
  intros H k v I. destruct (has_key "data" d) eqn:D.
  - destruct (extract_features_with_data now d f D H)
      as (s1 & s2 & s3 & s4 & s5 & s6 & s7 & c7 & p1 & p2 & p3 & p4 & p5 & p6 & p7
          & H1 & H2 & H3 & H4 & H5 & H6 & H7 & E & _).
    subst f. destruct I as [I | I]; [injection I as I _; left; symmetry; exact I |].
    right.
    assert (N : forall part ks,
               numeric_values part -> keys part = ks ->
               apart ks ["age"; "property_owned"; "employment_status"] = true ->
               In (k, v) part ->
               isinstance_int_float v = true
               /\ k <> "age" /\ k <> "property_owned" /\ k <> "employment_status").
    { intros part ks V K A Ip. split.
      - unfold numeric_values in V. rewrite Forall_forall in V. apply (V (k, v) Ip).
      - assert (Ik : In k ks) by (subst ks; apply (in_map fst _ _ Ip)).
        unfold apart in A. rewrite forallb_forall in A. specialize (A k Ik).
        apply negb_true_iff in A. simpl in A. rewrite !orb_false_iff in A.
        destruct A as [A1 [A2 [A3 _]]].
        apply String.eqb_neq in A1, A2, A3. tauto. }
    repeat (apply in_app_or in I; destruct I as [I | I]).
    + right. apply (N p1 _ (process_account_ratings_numeric s1 p1 H1)
                      (process_account_ratings_keys s1 p1 H1) eq_refl I).
    + right. apply (N p2 _ (process_credit_summary_numeric s2 p2 H2)
                      (process_credit_summary_keys s2 p2 H2) eq_refl I).
    + right. apply (N p3 _ (process_enquiry_history_numeric now s3 p3 H3)
                      (process_enquiry_history_keys now s3 p3 H3) eq_refl I).
    + right. apply (N p4 _ (process_credit_agreements_numeric s4 p4 H4)
                      (process_credit_agreements_keys s4 p4 H4) eq_refl I).
    + right. apply (N p5 _ (process_delinquency_numeric s5 p5 H5)
                      (process_delinquency_keys s5 p5 H5) eq_refl I).
    + left. pose proof (process_personal_details_values now s6 p6 H6) as P.
      rewrite Forall_forall in P. apply (P (k, v) I).
    + right. apply (N p7 _ (process_guarantor_info_numeric s7 c7 p7 H7)
                      (process_guarantor_info_keys s7 c7 p7 H7) eq_refl I).
  - rewrite (extract_features_no_data now d D) in H. injection H as H. subst f.
    destruct I as [I | []]. injection I as I _. left. symmetry. exact I.
Qed.

Lemma extract_features_value_types_witness :
  let now := mk_datetime 2024 6 15 12 0 0 0 in
  let report : dict :=
    [ ("application_id", VStr "A1");
      ("data", VDict [("consumerfullcredit",
                       VDict [("creditaccountsummary",
                               VDict [("totaloutstandingdebt", VStr "n/a")])])]) ] in
  isinstance_int_float (VInt 0) = true
  /\ In ("total_outstanding_debt", VInt 0) (features_of now (VDict report)).
Proof.
  intros now report.
  assert (I : In ("total_outstanding_debt", VInt 0) (features_of now (VDict report))).
  { vm_compute. tauto. }
  split; [| exact I].
  destruct (extract_features_value_types now report (features_of now (VDict report))
              eq_refl _ _ I) as [E | [P | [N _]]].
  - discriminate E.
  - destruct P as [[E _] | [[E _] | [E _]]]; discriminate E.
  - exact N.
Defined.

(** ** A [data] that is not a mapping *)

(** X17: when the report has the key [data] but its value is not a mapping
    (None, a string, a number, a list), or [data] is a mapping whose
    [consumerfullcredit] is present and not a mapping, the assembler raises
    AttributeError; only an absent key is read as empty. *)
Theorem extract_features_data_not_mapping (now : datetime) (d : dict) (v : pyval) :
  isinstance_dict v = false ->
  (lookup "data" d = Some v -> extract_features now (VDict d) = Raise AttributeError)
  /\ (forall data, lookup "data" d = Some (VDict data) ->
                   lookup "consumerfullcredit" data = Some v ->
                   extract_features now (VDict d) = Raise AttributeError).
Proof.
  intros N.
  assert (U : forall x, lookup "data" d = Some x ->
              extract_features now (VDict d)
              = (consumer_data <- get x "consumerfullcredit" (VDict []) ;;
                 section <- get consumer_data "accountrating" (VDict []) ;;
                 part <- process_account_ratings section ;;
                 let features :=
                   update [("application_id", field_or_none d "application_id")] part in
                 section <- get consumer_data "creditaccountsummary" (VDict []) ;;
                 part <- process_credit_summary section ;;
                 let features := update features part in
                 section <- get consumer_data "enquiryhistorytop" (VList []) ;;
                 part <- process_enquiry_history now section ;;
                 let features := update features part in
                 section <- get consumer_data "creditagreementsummary" (VList []) ;;
                 part <- process_credit_agreements section ;;
                 let features := update features part in
                 section <- get consumer_data "deliquencyinformation" (VDict []) ;;
                 part <- process_delinquency section ;;
                 let features := update features part in
                 section <- get consumer_data "personaldetailssummary" (VDict []) ;;
                 part <- process_personal_details now section ;;
                 let features := update features part in
                 details <- get consumer_data "guarantordetails" (VDict []) ;;
                 count <- get consumer_data "guarantorcount" (VDict []) ;;
                 part <- process_guarantor_info details count ;;
                 let features := update features part in
                 Ok features)).
  { intros x L. unfold extract_features, field_or_none. cbn [get].
    assert (T : truthy (VDict d) = true) by (destruct d; [discriminate L | reflexivity]).
    destruct (lookup "application_id" d); cbn [bind]; rewrite T;
      cbn [negb contains_key bind getitem]; unfold has_key; rewrite L; reflexivity. }
  split.
  - intros L. rewrite (U v L). destruct v; try discriminate N; reflexivity.
  - intros data L C. rewrite (U (VDict data) L). cbn [get]. rewrite C. cbn [bind].
    destruct v; try discriminate N; reflexivity.
Qed.

Lemma extract_features_data_not_mapping_witness :
  let now := mk_datetime 2024 6 15 12 0 0 0 in
  extract_features now (VDict [("application_id", VStr "A1"); ("data", VNone)])
  = Raise AttributeError
  /\ extract_features now
       (VDict [("application_id", VStr "A1");
               ("data", VDict [("consumerfullcredit", VList [])])])
     = Raise AttributeError.
Proof.
  intros now. split.
  - apply (proj1 (extract_features_data_not_mapping now
                    [("application_id", VStr "A1"); ("data", VNone)] VNone eq_refl)).
    reflexivity.
  - apply (proj2 (extract_features_data_not_mapping now
                    [("application_id", VStr "A1");
                     ("data", VDict [("consumerfullcredit", VList [])])]
                    (VList []) eq_refl)
                 [("consumerfullcredit", VList [])]); reflexivity.
Defined.

(** ** Enquiries with a well-formed timestamp *)

Lemma tokens_enquiry :
  tokens enquiry_format
  = [ Dir "d"; Lit "/"; Dir "m"; Lit "/"; Dir "Y"; Spaces;
      Dir "H"; Lit ":"; Dir "M"; Lit ":"; Dir "S" ].
Proof. reflexivity. Qed.

Lemma match_year_then (y : Z) (ts : list token) (r : string) :
  0 <= y <= 9999 ->
  match_tokens (Dir "Y" :: ts) (four_digits y ++ r)
  = map (fun gr : groups * string => (("Y"%char, four_digits y) :: fst gr, snd gr))
        (match_tokens ts r).
Proof.
  intros H. destruct (year_digits y H) as [A [B [C [D _]]]].
  unfold four_digits. cbn.
  rewrite !isdigit_digit_char by assumption. cbn. apply app_nil_r.
Qed.

Lemma isspace_digit_char (k : Z) : 0 <= k <= 9 -> isspace (digit_char k) = false.
Proof. intros H. apply isdigit_not_space, isdigit_digit_char, H. Qed.

Lemma match_space_then (ts : list token) (c : ascii) (r : string) :
  isspace c = false ->
  match_tokens (Spaces :: ts) (String " " (String c r)) = match_tokens ts (String c r).
Proof.
  intros H. cbn [match_tokens match_spaces]. rewrite H.
  change (isspace " ") with true. cbn [app flat_map]. apply app_nil_r.
Qed.

Lemma match_hour (n : nat) (ts : list token) (r : string) :
  (n <= 23)%nat ->
  match_tokens (Dir "H" :: Lit ":" :: ts) (two_digits (Z.of_nat n) ++ String ":" r)
  = map (fun gr : groups * string => (("H"%char, two_digits (Z.of_nat n)) :: fst gr, snd gr))
        (match_tokens ts r)
  /\ digits_val (strip (two_digits (Z.of_nat n))) = Z.of_nat n.
Proof.
  intros H.
  do 24 (destruct n as [| n];
         [split; [cbn; rewrite ?app_nil_r; reflexivity | reflexivity] |]).
  lia.
Qed.

Lemma match_minute (n : nat) (ts : list token) (r : string) :
  (n <= 59)%nat ->
  match_tokens (Dir "M" :: Lit ":" :: ts) (two_digits (Z.of_nat n) ++ String ":" r)
  = map (fun gr : groups * string => (("M"%char, two_digits (Z.of_nat n)) :: fst gr, snd gr))
        (match_tokens ts r)
  /\ digits_val (strip (two_digits (Z.of_nat n))) = Z.of_nat n.
Proof.
  intros H.
  do 60 (destruct n as [| n];
         [split; [cbn; rewrite ?app_nil_r; reflexivity | reflexivity] |]).
  lia.
Qed.

(** The seconds group ends the pattern: its first match takes both digits. *)
Lemma match_second (n : nat) :
  (n <= 59)%nat ->
  (exists rest,
      match_tokens [Dir "S"] (two_digits (Z.of_nat n))
      = ([("S"%char, two_digits (Z.of_nat n))], "") :: rest)
  /\ digits_val (strip (two_digits (Z.of_nat n))) = Z.of_nat n.
Proof.
  intros H.
  do 60 (destruct n as [| n];
         [split; [eexists; cbn; reflexivity | reflexivity] |]).
  lia.
Qed.

(** A valid datetime written dd/mm/yyyy HH:MM:SS parses back to itself. *)
Lemma strptime_format_timestamp (t : datetime) :
  valid t = true -> microsecond t = 0 ->
  strptime (VStr (format_timestamp t)) enquiry_format = Ok t.
Proof.
  intros V U. destruct t as [y m d h mi s us]. cbn [microsecond] in U. subst us.
  pose proof V as V'. unfold valid in V'.
  cbn [year month day hour minute second] in V'.
  rewrite !andb_true_iff, !Z.leb_le in V'.
  destruct V' as [[[[[[[[[[[Y1 Y2] M1] M2] D1] D2] H1] H2] I1] I2] S1] S2].
  assert (D3 : d <= 31).
  { unfold days_in_month in D2.
    destruct (m =? 2); [destruct (is_leap y); lia |].
    destruct ((m =? 4) || (m =? 6) || (m =? 9) || (m =? 11)); lia. }
  unfold format_timestamp. cbn [year month day hour minute second].
  unfold strptime. rewrite tokens_enquiry.
  destruct (match_day (Z.to_nat d)
              [Dir "m"; Lit "/"; Dir "Y"; Spaces; Dir "H"; Lit ":"; Dir "M"; Lit ":"; Dir "S"]
              (two_digits m ++ String "/" (four_digits y ++ String " "
                 (two_digits h ++ String ":" (two_digits mi ++ String ":" (two_digits s))))))
    as [Pd Fd]; [lia |].
  destruct (match_month (Z.to_nat m)
              [Dir "Y"; Spaces; Dir "H"; Lit ":"; Dir "M"; Lit ":"; Dir "S"]
              (four_digits y ++ String " "
                 (two_digits h ++ String ":" (two_digits mi ++ String ":" (two_digits s)))))
    as [Pm Fm]; [lia |].
  pose proof (match_year_then y [Spaces; Dir "H"; Lit ":"; Dir "M"; Lit ":"; Dir "S"]
                (String " " (two_digits h ++ String ":"
                               (two_digits mi ++ String ":" (two_digits s))))
                ltac:(lia)) as Py.
  destruct (match_year y) as [_ Fy]; [lia |].
  assert (Ps : match_tokens [Spaces; Dir "H"; Lit ":"; Dir "M"; Lit ":"; Dir "S"]
                 (String " " (two_digits h ++ String ":"
                                (two_digits mi ++ String ":" (two_digits s))))
               = match_tokens [Dir "H"; Lit ":"; Dir "M"; Lit ":"; Dir "S"]
                   (two_digits h ++ String ":"
                      (two_digits mi ++ String ":" (two_digits s)))).
  { unfold two_digits at 1 3. cbn [append]. apply match_space_then.
    apply isspace_digit_char. Z.div_mod_to_equations. lia. }
  destruct (match_hour (Z.to_nat h) [Dir "M"; Lit ":"; Dir "S"]
              (two_digits mi ++ String ":" (two_digits s))) as [Ph Fh]; [lia |].
  destruct (match_minute (Z.to_nat mi) [Dir "S"] (two_digits s)) as [Pi Fi]; [lia |].
  destruct (match_second (Z.to_nat s)) as [[rest Pse] Fs]; [lia |].
  rewrite !Z2Nat.id in * by lia.
  rewrite Pd, Pm, Py, Ps, Ph, Pi, Pse. cbn [map fst snd].
  unfold field. cbn [group Ascii.eqb Bool.eqb].
  rewrite Fd, Fm, Fy, Fh, Fi, Fs, V. reflexivity.
Qed.

(** X18: an entry whose [daterequested] is a valid datetime written
    dd/mm/yyyy HH:MM:SS is read as that datetime, and it adds 1 to the
    count exactly when it lies less than 91 days before now. *)
Theorem enquiry_well_formed_counted (now t : datetime) :
  valid t = true -> microsecond t = 0 ->
  let entry := VDict [("daterequested", VStr (format_timestamp t))] in
  timestamp entry = Some t
  /\ process_enquiry_history now (VList [entry])
     = Ok [("total_recent_enquiries",
            VInt (if elapsed_us now t <? 91 * day_us then 1 else 0))].
Proof.
  intros V U entry.
  assert (T : timestamp entry = Some t).
  { unfold timestamp, entry. cbn [lookup String.eqb Ascii.eqb Bool.eqb].
    rewrite (strptime_format_timestamp t V U). reflexivity. }
  split; [exact T |].
  rewrite process_enquiry_history_list. cbn [filter]. unfold counted. rewrite T.
  destruct (elapsed_us now t <? 91 * day_us); reflexivity.
Qed.

Lemma enquiry_well_formed_counted_witness :
  let now := mk_datetime 2024 6 15 12 0 0 0 in
  let t := mk_datetime 2024 3 16 13 0 0 0 in
  format_timestamp t = "16/03/2024 13:00:00"
  /\ process_enquiry_history now
       (VList [VDict [("daterequested", VStr (format_timestamp t))]])
     = Ok [("total_recent_enquiries", VInt 1)].
Proof.
  intros now t. split; [reflexivity |].
  apply (proj2 (enquiry_well_formed_counted now t eq_refl eq_refl)).
Defined.
